(** * Schuler dashboard server: last-value lookup, row assembly, presenters

    Shallow embedding of [SERVIDOR_LASTVALUE/server.py].  The SQLite file,
    the host's time zone and the path of the database are the environment of
    the process; the FastAPI layer is reduced to what a handler returns or
    raises. *)

From Stdlib Require Import ZArith String Ascii List Bool.
From stdpp Require Import base option list strings pretty gmap.

Local Open Scope string_scope.
Local Open Scope Z_scope.

(** ** SQL values and the [last_value] table *)

(** Storage classes of a SQLite cell.  The program reads a value only
    through [CAST(value AS TEXT)], so a REAL cell is kept as the text that
    SQLite prints for it rather than as a floating-point number. *)
Inductive sqlval : Type :=
  | SqlNull
  | SqlInteger (z : Z)
  | SqlReal (printed : string)
  | SqlText (s : string)
  | SqlBlob (s : string).

(** One row of table [last_value].  The schema is not part of the
    repository; the columns are the four the query names, with the types
    the query presupposes: integer keys, any scalar as value, and an
    integer count of nanoseconds since the Unix epoch, possibly NULL. *)
Record TableRow : Type := mkTableRow {
  t_dp_id : Z;
  t_el_id : Z;
  t_value : sqlval;
  t_system_time : option Z
}.

(** [CAST(value AS TEXT)]: the bytes of the text; SQLite does not check
    that they are UTF-8. *)
Definition cast_as_text (v : sqlval) : option string :=
  match v with
  | SqlNull => None
  | SqlInteger z => Some (pretty z)
  | SqlReal printed => Some printed
  | SqlText s => Some s
  | SqlBlob s => Some s
  end.

(** ** Text as Python reads it *)

Definition byte_in (lo hi : N) (c : ascii) : bool :=
  (lo <=? N_of_ascii c)%N && (N_of_ascii c <=? hi)%N.

(** A continuation byte, 80..BF. *)
Definition utf8_cont (c : ascii) : bool := byte_in 128 191 c.

(** Whether the bytes are well-formed UTF-8, as Python's strict decoder
    judges it: no overlong form, no surrogate, nothing above U+10FFFF. *)
Fixpoint valid_utf8 (s : string) : bool :=
  match s with
  | EmptyString => true
  | String c0 s1 =>
      if byte_in 0 127 c0 then valid_utf8 s1
      else
        match s1 with
        | EmptyString => false
        | String c1 s2 =>
            if byte_in 194 223 c0 then utf8_cont c1 && valid_utf8 s2
            else
              match s2 with
              | EmptyString => false
              | String c2 s3 =>
                  if (byte_in 224 224 c0 && byte_in 160 191 c1
                      || byte_in 225 236 c0 && utf8_cont c1
                      || byte_in 237 237 c0 && byte_in 128 159 c1
                      || byte_in 238 239 c0 && utf8_cont c1)
                     && utf8_cont c2
                  then valid_utf8 s3
                  else
                    match s3 with
                    | EmptyString => false
                    | String c3 s4 =>
                        (byte_in 240 240 c0 && byte_in 144 191 c1
                         || byte_in 241 243 c0 && utf8_cont c1
                         || byte_in 244 244 c0 && byte_in 128 143 c1)
                        && utf8_cont c2 && utf8_cont c3 && valid_utf8 s4
                    end
              end
        end
  end.

(** ** [strftime('%Y-%m-%d %H:%M:%S', s, 'unixepoch', 'localtime')] *)

(** Proleptic Gregorian date of a day count relative to 1970-01-01. *)
Definition civil_from_days (days : Z) : Z * Z * Z :=
  let z := days + 719468 in
  let era := z / 146097 in
  let doe := z - era * 146097 in
  let yoe := (doe - doe / 1460 + doe / 36524 - doe / 146096) / 365 in
  let doy := doe - (365 * yoe + yoe / 4 - yoe / 100) in
  let mp := (5 * doy + 2) / 153 in
  let d := doy - (153 * mp + 2) / 5 + 1 in
  let m := if mp <? 10 then mp + 3 else mp - 9 in
  let y := yoe + era * 400 + (if m <=? 2 then 1 else 0) in
  (y, m, d).

(** C's [%02d] on a value in 0..99. *)
Definition pad2 (n : Z) : string :=
  if n <? 10 then "0" ++ pretty n else pretty n.

(** C's [%04d]: the sign counts in the width. *)
Definition pad4 (n : Z) : string :=
  if n <? 0 then
    let a := - n in
    "-" ++ (if a <? 10 then "00" else if a <? 100 then "0" else "") ++ pretty a
  else
    (if n <? 10 then "000" else if n <? 100 then "00"
     else if n <? 1000 then "0" else "") ++ pretty n.

Definition format_datetime (secs : Z) : string :=
  let days := secs / 86400 in
  let rem := secs mod 86400 in
  let '(y, m, d) := civil_from_days days in
  pad4 y ++ "-" ++ pad2 m ++ "-" ++ pad2 d ++ " " ++
  pad2 (rem / 3600) ++ ":" ++ pad2 (rem mod 3600 / 60) ++ ":" ++ pad2 (rem mod 60).

(** SQLite accepts a Unix time only inside the Julian-day range
    -4713-11-24 12:00:00 .. 9999-12-31 23:59:59 and yields NULL outside. *)
Definition unixepoch_valid (s : Z) : bool :=
  (-210866760000 <=? s) && (s <? 253402300800).

(** [utc_offset] is the host's time zone: seconds to add to a UTC instant.
    For instants that the C library converts itself (1970 to 2037) this is
    what SQLite prints; outside them SQLite borrows the offset of another
    year, which a choice of [utc_offset] can follow only where the borrowed
    date exists in the printed year. *)
Definition strftime_local (utc_offset : Z -> Z) (s : option Z) : option string :=
  match s with
  | None => None
  | Some s =>
      if unixepoch_valid s then Some (format_datetime (s + utc_offset s))
      else None
  end.

(** SQL [/] on integers truncates toward zero; NULL propagates. *)
Definition sql_div (a : option Z) (b : Z) : option Z :=
  match a with
  | None => None
  | Some a => Some (Z.quot a b)
  end.

(** ** What a call can raise *)

(** FastAPI's [HTTPException], which becomes the response's status and
    detail, and the Python exceptions that the handlers let through:
    [KeyError], [OverflowError] (an integer that does not fit a SQLite
    INTEGER) and [sqlite3.OperationalError] (a text cell that is not UTF-8).
    The messages of the last two are left out. *)
Inductive exception : Type :=
  | HTTPException (status_code : Z) (detail : string)
  | KeyError (key : string)
  | OverflowError
  | OperationalError.

Inductive outcome (A : Type) : Type :=
  | Return (a : A)
  | Raise (e : exception).
Arguments Return {A} a.
Arguments Raise {A} e.

#[global] Instance outcome_ret : MRet outcome := fun A a => Return a.

#[global] Instance outcome_bind : MBind outcome := fun A B k m =>
  match m with
  | Return a => k a
  | Raise e => Raise e
  end.

(** ** The query [SQL_LAST] *)

(** What [dict(row)] holds: the four output columns of the query. *)
Record ResultRow : Type := mkResultRow {
  dp_id : Z;
  el_id : Z;
  value : option string;
  system_time : option string
}.

(** An open read-only connection: the table as the scan visits it, and the
    time zone the date functions see. *)
Record Connection : Type := mkConnection {
  con_table : list TableRow;
  con_utc_offset : Z -> Z
}.

(** [WHERE dp_id = ? AND el_id = ?] *)
Definition sql_where (dp el : Z) (t : TableRow) : bool :=
  (t_dp_id t =? dp) && (t_el_id t =? el).

(** The SELECT list.  The fourth column is computed and then named
    [system_time], like the table column it is computed from. *)
Definition sql_select (off : Z -> Z) (t : TableRow) : ResultRow :=
  {| dp_id := t_dp_id t;
     el_id := t_el_id t;
     value := cast_as_text (t_value t);
     system_time := strftime_local off (sql_div (t_system_time t) 1000000000) |}.

(** Order of SQLite on NULL and TEXT cells: NULL first, then text by bytes. *)
Definition sql_compare (a b : option string) : comparison :=
  match a, b with
  | None, None => Eq
  | None, Some _ => Lt
  | Some _, None => Gt
  | Some x, Some y => String.compare x y
  end.

(** [ORDER BY system_time DESC].  In an ORDER BY term SQLite looks for an
    output column of that name before it looks at the table, so the key is
    the formatted text of [sql_select], not the stored integer.  Rows with
    equal keys stay in scan order. *)
Fixpoint order_insert (r : ResultRow) (sorted : list ResultRow) : list ResultRow :=
  match sorted with
  | [] => [r]
  | r' :: rest =>
      match sql_compare (system_time r') (system_time r) with
      | Gt => r' :: order_insert r rest
      | _ => r :: r' :: rest
      end
  end.

Definition order_by_system_time_desc (rs : list ResultRow) : list ResultRow :=
  foldr order_insert [] rs.

(** [LIMIT n] *)
Definition sql_limit (n : nat) (rs : list ResultRow) : list ResultRow :=
  firstn n rs.

Definition SQL_LAST (con : Connection) (dp el : Z) : list ResultRow :=
  sql_limit 1
    (order_by_system_time_desc
       (map (sql_select (con_utc_offset con))
            (filter (fun t => sql_where dp el t = true) (con_table con)))).

(** The row that the statement yields, its text cells still bytes. *)
Definition fetchone (con : Connection) (dp el : Z) : option ResultRow :=
  head (SQL_LAST con dp el).

(** A Python [int] can be bound to a parameter only if it fits a signed
    64-bit integer. *)
Definition in_int64 (z : Z) : bool :=
  (-9223372036854775808 <=? z) && (z <=? 9223372036854775807).

(** Whether Python can turn the text cells of the row into [str].  The
    time cell is the digits and punctuation that [strftime] prints; the
    value cell is whatever the store holds. *)
Definition decodes (r : ResultRow) : bool :=
  match value r with
  | None => true
  | Some v => valid_utf8 v
  end.

(** [con.execute(SQL_LAST, (dp_id, el_id)).fetchone()], then
    [dict(row) if row else None].  Binding the parameters comes first and
    raises [OverflowError]; reading the row raises [OperationalError]. *)
Definition fetch_last (con : Connection) (dp el : Z) : outcome (option ResultRow) :=
  if in_int64 dp && in_int64 el then
    match fetchone con dp el with
    | None => Return None
    | Some row => if decodes row then Return (Some row) else Raise OperationalError
    end
  else Raise OverflowError.

(** ** The process environment and what a handler can do *)

(** [db_file] is [None] when there is no file at [DB_PATH], and the table
    [last_value] of the database otherwise.  A file that is there but is
    not a database with that table is not represented. *)
Record Host : Type := mkHost {
  DB_PATH : string;
  db_file : option (list TableRow);
  utc_offset : Z -> Z
}.

Definition get_conn (h : Host) : outcome Connection :=
  match db_file h with
  | None => Raise (HTTPException 500 ("No se encontró la BD en: " ++ DB_PATH h))
  | Some t => Return {| con_table := t; con_utc_offset := utc_offset h |}
  end.

(** ** Configuration *)

(** A [Dict[str, int]] read in insertion order. *)
Definition SCHULERS : list (string * Z) :=
  [ ("Schuler1", 982);
    ("Schuler2", 1028);
    ("Schuler3", 1029);
    ("Schuler4", 810);
    ("Schuler5", 1030) ].

Definition EL_IDS : list Z := [69; 48; 116; 154; 152; 153; 52; 54; 160; 137; 50].

Definition DPELEMENT_BY_EL : gmap Z string :=
  list_to_map
    [ (69,  "Barras.VelocidadAcunado.Valor");
      (48,  "DatosGen.ModoTrabajo.Led");
      (116, "DatosGen.ModoTrabajo.Modo");
      (154, "DatosGen.Denominacion");
      (152, "DatosGen.OT");
      (153, "DatosGen.Operador");
      (52,  "Tendencia.Avance");
      (54,  "OEE.Rendimiento");
      (160, "Tendencia.MetaActual");
      (137, "TiempoMuerto");
      (50,  "Tendencia.Programado") ].

(** [d.get(k, dflt)] *)
Definition dict_get (d : gmap Z string) (k : Z) (dflt : string) : string :=
  default dflt (d !! k).

(** [d[k]] *)
Fixpoint dict_getitem (d : list (string * Z)) (k : string) : outcome Z :=
  match d with
  | [] => Raise (KeyError k)
  | (k', v) :: d' => if String.eqb k' k then Return v else dict_getitem d' k
  end.

(** [d[k] = v]: a key already present keeps its place. *)
Fixpoint dict_setitem {V : Type} (d : list (string * V)) (k : string) (v : V)
    : list (string * V) :=
  match d with
  | [] => [(k, v)]
  | (k', v') :: d' =>
      if String.eqb k' k then (k', v) :: d' else (k', v') :: dict_setitem d' k v
  end.

(** [f"el_{el}"] *)
Definition el_label (el : Z) : string := "el_" ++ pretty el.

(** ** Row assembly *)

Record Row : Type := mkRow {
  Schuler : string;
  DP : Z;
  DPELEMENT : string;
  EL_ID : Z;
  Valor : option string;
  FechaHora : option string
}.

(** The dictionary that the inner loop appends, [r] being what
    [fetch_last] returned. *)
Definition build_row (sch_name : string) (dp el : Z) (r : option ResultRow) : Row :=
  let etiqueta := dict_get DPELEMENT_BY_EL el (el_label el) in
  {| Schuler := sch_name;
     DP := dp;
     DPELEMENT := etiqueta;
     EL_ID := el;
     Valor := match r with Some r => value r | None => None end;
     FechaHora := match r with Some r => system_time r | None => None end |}.

(** [for el in els: r = fetch_last(con, dp, el); rows.append(...)] *)
Fixpoint build_rows_elements (con : Connection) (sch_name : string) (dp : Z)
    (els : list Z) (rows : list Row) : outcome (list Row) :=
  match els with
  | [] => mret rows
  | el :: els' =>
      r ← fetch_last con dp el;
      build_rows_elements con sch_name dp els' (rows ++ [build_row sch_name dp el r])%list
  end.

(** [for sch_name, dp in machines.items(): for el in els: ...] *)
Fixpoint build_rows_machines (con : Connection) (machines : list (string * Z))
    (els : list Z) (rows : list Row) : outcome (list Row) :=
  match machines with
  | [] => mret rows
  | (sch_name, dp) :: machines' =>
      rows ← build_rows_elements con sch_name dp els rows;
      build_rows_machines con machines' els rows
  end.

(** [get_conn] is called before the [try]; the [finally] closes the
    connection and changes no result. *)
Definition build_rows (h : Host) : outcome (list Row) :=
  con ← get_conn h;
  build_rows_machines con SCHULERS EL_IDS [].

(** ** Presenters and the single-pair endpoint *)

Definition newline : string := String "010"%char "".

(** [next((x for x in rows if x["Schuler"] == sch and x["EL_ID"] == el), None)] *)
Definition find_row (rows : list Row) (sch : string) (el : Z) : option Row :=
  find (fun x => String.eqb (Schuler x) sch && (EL_ID x =? el)) rows.

(** [val] and [ts]: the empty string if no row was found or the field is
    [None], else the field ([str] of a [str] is itself). *)
Definition cell_text (r : option Row) (field : Row -> option string) : string :=
  match r with
  | None => ""
  | Some r => match field r with
              | None => ""
              | Some v => v
              end
  end.

(** One pass of the inner loop of [dashboard_schuler]: the appended [<tr>]. *)
Definition dashboard_tr (rows : list Row) (sch : string) (el : Z) : string :=
  let r := find_row rows sch el in
  let val := cell_text r Valor in
  let ts := cell_text r FechaHora in
  "<tr>" ++
  "<td>" ++ dict_get DPELEMENT_BY_EL el (el_label el) ++ "</td>" ++
  "<td>" ++ val ++ "</td>" ++
  "<td>" ++ ts ++ "</td>" ++
  "</tr>".

Definition dashboard_h2 (sch : string) (dp : Z) : string :=
  "<h2>" ++ sch ++ " <small style='color:#666'>(dp_id " ++ pretty dp ++ ")</small></h2>".

Definition dashboard_thead : string :=
  "<table><thead><tr>" ++
  "<th style='width:45%'>DPELEMENT</th>" ++
  "<th style='width:25%'>Valor</th>" ++
  "<th>FechaHora</th>" ++
  "</tr></thead><tbody>".

(** [for el in els: ... sec.append(...)] *)
Definition dashboard_sec_elements (rows : list Row) (sch : string) (els : list Z)
    (sec : list string) : list string :=
  fold_left (fun sec el => (sec ++ [dashboard_tr rows sch el])%list) els sec.

(** Body of the outer loop: the text appended to [sections]. *)
Definition dashboard_section (rows : list Row) (sch : string) : outcome string :=
  dp ← dict_getitem SCHULERS sch;
  let sec := [dashboard_h2 sch dp; dashboard_thead] in
  let sec := dashboard_sec_elements rows sch EL_IDS sec in
  let sec := (sec ++ ["</tbody></table>"])%list in
  mret (String.concat newline sec).

(** [for sch in keys: ... sections.append(...)] *)
Definition dashboard_sections (rows : list Row) (keys : list string)
    (sections : list string) : outcome (list string) :=
  fold_left (fun acc sch =>
               sections ← acc;
               s ← dashboard_section rows sch;
               mret (sections ++ [s])%list)
            keys (mret sections).

Definition dashboard_style : string := "
    <style>
      body{font-family:Segoe UI,Arial,sans-serif;margin:16px}
      table{border-collapse:collapse;width:100%;margin:12px 0}
      th,td{border:1px solid #e6e6e6;padding:8px}
      th{background:#f5f6f8;text-align:left}
      tr:nth-child(even){background:#fafafa}
      h2{margin:20px 0 6px}
    </style>
    ".

Definition dashboard_html (sections : list string) : string :=
  "<!doctype html><html><head><meta charset='utf-8'>" ++
  "<title>Dashboard Schuler</title>" ++
  dashboard_style ++ "</head><body>" ++
  "<h1>Dashboard Schuler</h1>" ++
  String.concat "" sections ++
  "</body></html>".

(** The body of the [HTMLResponse]. *)
Definition dashboard_schuler (h : Host) : outcome string :=
  rows ← build_rows h;
  sections ← dashboard_sections rows (map fst SCHULERS) [];
  mret (dashboard_html sections).

(** [/_dashboard] *)
Definition dashboard_alias (h : Host) : outcome string := dashboard_schuler h.

(** One value of the JSON object: [{"dp_id": dp, "items": items}]. *)
Record SchulerEntry : Type := mkSchulerEntry {
  entry_dp_id : Z;
  items : list Row
}.

(** [for sch, dp in machines.items(): out[sch] = {...}] *)
Definition api_schuler_loop (rows : list Row) (machines : list (string * Z))
    (out : list (string * SchulerEntry)) : list (string * SchulerEntry) :=
  fold_left (fun out '(sch, dp) =>
               let items := filter (fun r => String.eqb (Schuler r) sch = true) rows in
               dict_setitem out sch {| entry_dp_id := dp; items := items |})
            machines out.

(** The content of the [JSONResponse]. *)
Definition api_schuler (h : Host) : outcome (list (string * SchulerEntry)) :=
  rows ← build_rows h;
  mret (api_schuler_loop rows SCHULERS []).

Definition get_value_by_path (h : Host) (dp_id el_id : Z) : outcome ResultRow :=
  con ← get_conn h;
  r ← fetch_last con dp_id el_id;
  match r with
  | None => Raise (HTTPException 404
                     ("No hay valor para dp_id=" ++ pretty dp_id ++
                      " y el_id=" ++ pretty el_id))
  | Some r => Return r
  end.

(** How the framework answers: the status of the response.  An exception
    that is not an [HTTPException] becomes a 500. *)
Definition response_status {A : Type} (o : outcome A) : Z :=
  match o with
  | Return _ => 200
  | Raise (HTTPException code _) => code
  | Raise _ => 500
  end.

(** ** Reference renderings used to state the properties *)

(** The usual HTML escaping of text content. *)
Definition html_escape_char (c : ascii) : string :=
  if Ascii.eqb c "&" then "&amp;"
  else if Ascii.eqb c "<" then "&lt;"
  else if Ascii.eqb c ">" then "&gt;"
  else if Ascii.eqb c "034" then "&quot;"
  else if Ascii.eqb c "'" then "&#x27;"
  else String c "".

Fixpoint html_escape (s : string) : string :=
  match s with
  | EmptyString => ""
  | String c s' => html_escape_char c ++ html_escape s'
  end.

(** A field of a row as a cell shows it. *)
Definition field_text (f : option string) : string :=
  match f with
  | None => ""
  | Some v => v
  end.

(** The [<tr>] of a row, from the row alone. *)
Definition tr_of_row (r : Row) : string :=
  "<tr><td>" ++ DPELEMENT r ++ "</td><td>" ++ field_text (Valor r) ++
  "</td><td>" ++ field_text (FechaHora r) ++ "</td></tr>".

(** The rows of one machine, in the order of [els], from the rows that the
    statement yields. *)
Definition machine_rows (con : Connection) (els : list Z) (m : string * Z) : list Row :=
  map (fun el => build_row (fst m) (snd m) el (fetchone con (snd m) el)) els.

(** [fetch_last] raises nothing: the two ids fit a SQLite INTEGER and the
    value of the selected record, if there is one, is NULL or UTF-8. *)
Definition lookup_ok (con : Connection) (dp el : Z) : bool :=
  in_int64 dp && in_int64 el
  && match fetchone con dp el with
     | None => true
     | Some row => decodes row
     end.

Definition lookups_ok (con : Connection) (machines : list (string * Z))
    (els : list Z) : bool :=
  forallb (fun m => forallb (lookup_ok con (snd m)) els) machines.

(** Every lookup of [build_rows] can be read. *)
Definition store_readable (con : Connection) : bool :=
  lookups_ok con SCHULERS EL_IDS.

(** The section of one machine, from its rows in the order given. *)
Definition section_of_rows (m : string * Z) (rs : list Row) : string :=
  String.concat newline
    ([dashboard_h2 (fst m) (snd m); dashboard_thead] ++ map tr_of_row rs
     ++ ["</tbody></table>"])%list.

(** The JSON entry of one machine, from its rows in the order given. *)
Definition entry_of_rows (m : string * Z) (rs : list Row) : string * SchulerEntry :=
  (fst m, {| entry_dp_id := snd m; items := rs |}).

(** A table row that the WHERE clause of the query keeps. *)
Definition matches (dp el : Z) (t : TableRow) : Prop :=
  t_dp_id t = dp ∧ t_el_id t = el.

(** In the order of [sql_compare], [a] does not sort after [b]. *)
Definition key_le (a b : option string) : Prop := sql_compare a b ≠ Gt.

(** ** Where the database file is looked for *)

Definition DB_NAME : string := "last_value.sqlite".

Section DbPath.
(** [pathlib] and the file system as the module sees them when it is
    imported: the directory of [server.py], [p.parent], [a / b], [Path(s)],
    [p.is_absolute()] and [p.exists()]. *)
Variable path : Type.
Variable HERE : path.
Variable parent : path -> path.
Variable joinpath : path -> path -> path.
Variable Path : string -> path.
Variable is_absolute : path -> bool.
Variable path_exists : path -> bool.

(** [CANDIDATES[0]] and [CANDIDATES[1]] *)
Definition CANDIDATE_0 : path := joinpath HERE (Path DB_NAME).

Definition CANDIDATE_1 : path :=
  joinpath (joinpath (parent HERE) (Path "DB")) (Path DB_NAME).

Definition CANDIDATES : list path := [CANDIDATE_0; CANDIDATE_1].

(** [next((p for p in CANDIDATES if p.exists()), CANDIDATES[0])] *)
Definition detected_db_path : path :=
  match find path_exists CANDIDATES with
  | Some p => p
  | None => CANDIDATE_0
  end.

(** The value of the module's [DB_PATH] after the override.  [env_db] is
    [os.getenv("LASTVALUE_DB")]: [None] when the variable is not set; the
    empty string is falsy. *)
Definition resolve_db_path (env_db : option string) : path :=
  match env_db with
  | None => detected_db_path
  | Some e =>
      if String.eqb e "" then detected_db_path
      else
        let p := Path e in
        if is_absolute p then p else joinpath HERE p
  end.
End DbPath.

(** ** The remaining routes *)

(** [{"db_path": str(DB_PATH), "db_exists": DB_PATH.exists()}] *)
Record HealthReport : Type := mkHealthReport {
  db_path : string;
  db_exists : bool
}.

Definition health (h : Host) : HealthReport :=
  {| db_path := DB_PATH h;
     db_exists := match db_file h with Some _ => true | None => false end |}.

Inductive RootResponse : Type :=
  | FileResponse (file : string)
  | RedirectResponse (url : string) (status : Z).

(** [index] is [str(HERE / "index.html")], [index_exists] whether that file
    is there. *)
Definition root (index : string) (index_exists : bool) : RootResponse :=
  if index_exists then FileResponse index
  else RedirectResponse "/_dashboard" 307.

(** The GET routes that answer with an [HTMLResponse]. *)
Definition html_route (h : Host) (url : string) : option (outcome string) :=
  if String.eqb url "/_dashboard" then Some (dashboard_alias h)
  else if String.eqb url "/dashboard/schuler" then Some (dashboard_schuler h)
  else None.

(** ** The query of [SERVIDORPYTHON1/pruebas.py] *)

(** Order of SQLite on NULL and INTEGER cells: NULL first. *)
Definition sql_compare_int (a b : option Z) : comparison :=
  match a, b with
  | None, None => Eq
  | None, Some _ => Lt
  | Some _, None => Gt
  | Some x, Some y => Z.compare x y
  end.

(** [ORDER BY system_time DESC] under [SELECT *]: no output column is
    renamed, so the key is the stored column. *)
Fixpoint order_insert_raw (t : TableRow) (sorted : list TableRow) : list TableRow :=
  match sorted with
  | [] => [t]
  | t' :: rest =>
      match sql_compare_int (t_system_time t') (t_system_time t) with
      | Gt => t' :: order_insert_raw t rest
      | _ => t :: t' :: rest
      end
  end.

Definition order_by_raw_system_time_desc (ts : list TableRow) : list TableRow :=
  foldr order_insert_raw [] ts.

(** [SELECT * FROM last_value WHERE dp_id = 10 ORDER BY system_time DESC
    LIMIT 1], then [fetchone()]. *)
Definition pruebas_last (table : list TableRow) : option TableRow :=
  head (firstn 1
          (order_by_raw_system_time_desc
             (filter (fun t => (t_dp_id t =? 10) = true) table))).

(** ** Further notions used to state properties *)

(** The record belongs to a pair that [build_rows] looks up. *)
Definition is_configured (t : TableRow) : bool :=
  existsb (fun m => snd m =? t_dp_id t) SCHULERS
  && existsb (fun e => e =? t_el_id t) EL_IDS.

(** The characters that [html_escape] rewrites. *)
Definition html_significant (c : ascii) : bool :=
  Ascii.eqb c "&" || Ascii.eqb c "<" || Ascii.eqb c ">"
  || Ascii.eqb c "034" || Ascii.eqb c "'".

Fixpoint has_html_significant (s : string) : bool :=
  match s with
  | EmptyString => false
  | String c s' => html_significant c || has_html_significant s'
  end.

(** The formatted time of a stored record, the key of [SQL_LAST]'s order. *)
Definition time_text (off : Z -> Z) (t : TableRow) : option string :=
  strftime_local off (sql_div (t_system_time t) 1000000000).

#[global] Instance sqlval_eq_dec : EqDecision sqlval.
Proof. solve_decision. Defined.

#[global] Instance TableRow_eq_dec : EqDecision TableRow.
Proof. solve_decision. Defined.

(** * Properties *)

(** ** The query *)

Lemma sql_where_matches dp el t : sql_where dp el t = true ↔ matches dp el t.
Proof.
  unfold sql_where, matches. rewrite andb_true_iff, !Z.eqb_eq. done.
Qed.

Lemma elem_of_order_insert r x l : r ∈ order_insert x l ↔ r = x ∨ r ∈ l.
Proof.
  induction l as [|y l IH]; simpl.
  - rewrite list_elem_of_singleton, elem_of_nil. tauto.
  - destruct (sql_compare (system_time y) (system_time x));
      rewrite ?elem_of_cons, ?IH; tauto.
Qed.

Lemma elem_of_order_by r rs : r ∈ order_by_system_time_desc rs ↔ r ∈ rs.
Proof.
  unfold order_by_system_time_desc.
  induction rs as [|x rs IH]; simpl; [done|].
  rewrite elem_of_order_insert, IH, elem_of_cons. tauto.
Qed.

Lemma filter_none {A} (P : A → Prop) `{!∀ x, Decision (P x)} (l : list A) :
  (∀ x, x ∈ l → ¬ P x) → filter P l = [].
Proof.
  induction l as [|x l IH]; intros Hall; [done|].
  rewrite filter_cons_False by (apply Hall; left).
  apply IH. intros y Hy. apply Hall. by right.
Qed.

Lemma head_limit_1 rs : head (sql_limit 1 rs) = head rs.
Proof. by destruct rs. Qed.

Lemma order_by_nil_inv rs : order_by_system_time_desc rs = [] → rs = [].
Proof.
  destruct rs as [|x rs]; [done|]. intros H.
  assert (Hx : x ∈ order_by_system_time_desc (x :: rs))
    by (apply elem_of_order_by; left).
  rewrite H in Hx. by apply elem_of_nil in Hx.
Qed.

(** The statement yields nothing exactly when no table row has the two keys. *)
Lemma fetchone_None con dp el :
  fetchone con dp el = None ↔ ∀ t, t ∈ con_table con → ¬ matches dp el t.
Proof.
  unfold fetchone, SQL_LAST. rewrite head_limit_1. split.
  - intros H t Ht Hm. apply head_None in H. apply order_by_nil_inv in H.
    apply fmap_nil_inv in H.
    assert (Hin : t ∈ filter (λ t, sql_where dp el t = true) (con_table con)).
    { apply list_elem_of_filter. split; [by apply sql_where_matches|done]. }
    rewrite H in Hin. by apply elem_of_nil in Hin.
  - intros H. apply head_None.
    rewrite filter_none; [done|]. intros t Ht Hw.
    apply (H t Ht). by apply sql_where_matches.
Qed.

(** What the statement yields is the projection of a table row with the
    two keys. *)
Lemma fetchone_Some con dp el r :
  fetchone con dp el = Some r →
  ∃ t, t ∈ con_table con ∧ matches dp el t ∧ r = sql_select (con_utc_offset con) t.
Proof.
  unfold fetchone, SQL_LAST. rewrite head_limit_1. intros H.
  apply head_Some_elem_of in H. rewrite elem_of_order_by in H.
  apply list_elem_of_In, in_map_iff in H as (t & <- & Ht).
  apply list_elem_of_In, list_elem_of_filter in Ht as [Hw Ht].
  exists t. split_and!; [done|by apply sql_where_matches|done].
Qed.

Lemma fetchone_is_Some con dp el t :
  t ∈ con_table con → matches dp el t → is_Some (fetchone con dp el).
Proof.
  intros Ht Hm. destruct (fetchone con dp el) eqn:E; [by eexists|].
  exfalso. eapply fetchone_None in E; eauto.
Qed.

(** ** [fetch_last] on top of the statement *)

Lemma fetch_last_ok con dp el :
  lookup_ok con dp el = true → fetch_last con dp el = Return (fetchone con dp el).
Proof.
  unfold lookup_ok, fetch_last. intros H.
  apply andb_true_iff in H as [-> H].
  destruct (fetchone con dp el) as [row|]; [by rewrite H|done].
Qed.

Lemma fetch_last_not_ok con dp el :
  lookup_ok con dp el = false →
  fetch_last con dp el
  = Raise (if in_int64 dp && in_int64 el then OperationalError else OverflowError).
Proof.
  unfold lookup_ok, fetch_last. intros H.
  destruct (in_int64 dp && in_int64 el); [|done]. simpl in H.
  destruct (fetchone con dp el) as [row|]; [by rewrite H|done].
Qed.

Lemma fetch_last_Return con dp el o :
  fetch_last con dp el = Return o →
  o = fetchone con dp el ∧ lookup_ok con dp el = true.
Proof.
  intros H. destruct (lookup_ok con dp el) eqn:E.
  - rewrite fetch_last_ok in H by done. by injection H as <-.
  - by rewrite fetch_last_not_ok in H.
Qed.

Lemma lookup_ok_in_int64 con dp el :
  lookup_ok con dp el = true → in_int64 dp = true ∧ in_int64 el = true.
Proof.
  unfold lookup_ok. intros H. apply andb_true_iff in H as [H _].
  by apply andb_true_iff in H.
Qed.

(** ** The loops of [build_rows] *)

Section BuildRows.
Variable con : Connection.

Lemma build_rows_elements_ok sch dp els rows :
  forallb (lookup_ok con dp) els = true →
  build_rows_elements con sch dp els rows
  = Return (rows ++ machine_rows con els (sch, dp))%list.
Proof.
  revert rows. induction els as [|el els IH]; intros rows H.
  - simpl. by rewrite app_nil_r.
  - cbn [forallb] in H. apply andb_true_iff in H as [Hel Hels].
    cbn [build_rows_elements]. rewrite fetch_last_ok by done.
    unfold mbind, outcome_bind. rewrite IH by done.
    unfold machine_rows. cbn [map fst snd]. by rewrite <- app_assoc.
Qed.

Lemma build_rows_elements_raise sch dp els rows :
  forallb (lookup_ok con dp) els = false →
  ∃ el, el ∈ els ∧ lookup_ok con dp el = false
        ∧ build_rows_elements con sch dp els rows
          = Raise (if in_int64 dp && in_int64 el then OperationalError
                   else OverflowError).
Proof.
  revert rows. induction els as [|el els IH]; intros rows H; [done|].
  cbn [forallb] in H. cbn [build_rows_elements].
  destruct (lookup_ok con dp el) eqn:Hel.
  - simpl in H. destruct (IH (rows ++ [build_row sch dp el (fetchone con dp el)])%list H)
      as (el' & Hin & Hbad & Hr).
    exists el'. rewrite fetch_last_ok by done. split_and!; [by right|done|done].
  - exists el. rewrite fetch_last_not_ok by done. split_and!; [by left|done|done].
Qed.

Lemma build_rows_machines_ok ms els rows :
  lookups_ok con ms els = true →
  build_rows_machines con ms els rows
  = Return (rows ++ flat_map (machine_rows con els) ms)%list.
Proof.
  unfold lookups_ok. revert rows.
  induction ms as [|[sch dp] ms IH]; intros rows H.
  - simpl. by rewrite app_nil_r.
  - cbn [forallb snd] in H. apply andb_true_iff in H as [Hm Hms].
    cbn [build_rows_machines]. rewrite build_rows_elements_ok by done.
    unfold mbind, outcome_bind. rewrite IH by done.
    cbn [flat_map]. by rewrite <- app_assoc.
Qed.

Lemma build_rows_machines_raise ms els rows :
  lookups_ok con ms els = false →
  ∃ m el, m ∈ ms ∧ el ∈ els ∧ lookup_ok con (snd m) el = false
          ∧ build_rows_machines con ms els rows
            = Raise (if in_int64 (snd m) && in_int64 el then OperationalError
                     else OverflowError).
Proof.
  unfold lookups_ok. revert rows.
  induction ms as [|[sch dp] ms IH]; intros rows H; [done|].
  cbn [forallb snd] in H. cbn [build_rows_machines].
  destruct (forallb (lookup_ok con dp) els) eqn:Hm.
  - simpl in H. rewrite build_rows_elements_ok by done.
    unfold mbind, outcome_bind.
    destruct (IH (rows ++ machine_rows con els (sch, dp))%list H)
      as (m & el & Hin & Hel & Hbad & Hr).
    exists m, el. split_and!; [by right|done..].
  - destruct (build_rows_elements_raise sch dp els rows Hm) as (el & Hel & Hbad & Hr).
    exists (sch, dp), el. rewrite Hr. split_and!; [by left|done..].
Qed.

(** [build_rows_machines] returns exactly when every lookup can be read,
    and then the blocks of the machines in order. *)
Lemma build_rows_machines_Return ms els rows :
  build_rows_machines con ms els [] = Return rows ↔
  lookups_ok con ms els = true ∧ rows = flat_map (machine_rows con els) ms.
Proof.
  split.
  - intros H. destruct (lookups_ok con ms els) eqn:E.
    + rewrite build_rows_machines_ok in H by done. by injection H as <-.
    + destruct (build_rows_machines_raise ms els [] E) as (m & el & _ & _ & _ & Hr).
      by rewrite Hr in H.
  - intros [E ->]. by rewrite build_rows_machines_ok.
Qed.

Lemma length_machine_rows els m : length (machine_rows con els m) = length els.
Proof. unfold machine_rows. apply length_map. Qed.

Lemma length_machine_blocks ms els :
  length (flat_map (machine_rows con els) ms) = (length ms * length els)%nat.
Proof.
  induction ms as [|m ms IH]; simpl; [done|].
  rewrite length_app, length_machine_rows, IH. done.
Qed.

(** The rows of machine [m] carry its name and nothing else does, when
    names are keys of a dictionary. *)
Lemma find_in_machine_rows els sch dp el :
  el ∈ els →
  find (λ x, String.eqb (Schuler x) sch && (EL_ID x =? el))
       (machine_rows con els (sch, dp))
  = Some (build_row sch dp el (fetchone con dp el)).
Proof.
  unfold machine_rows. cbn [fst snd]. induction els as [|e els IH]; intros Hin.
  - by apply elem_of_nil in Hin.
  - cbn [map find build_row Schuler EL_ID]. rewrite String.eqb_refl. simpl andb.
    destruct (Z.eqb_spec e el) as [->|Hne]; [done|].
    apply IH. apply elem_of_cons in Hin as [->|]; done.
Qed.

Lemma find_not_in_machine_rows els m sch el :
  fst m ≠ sch →
  find (λ x, String.eqb (Schuler x) sch && (EL_ID x =? el))
       (machine_rows con els m) = None.
Proof.
  intros Hne. unfold machine_rows. induction els as [|e els IH]; [done|].
  cbn [map find build_row Schuler]. apply String.eqb_neq in Hne. by rewrite Hne.
Qed.

Lemma find_app {A} (f : A → bool) l1 l2 :
  find f (l1 ++ l2) = match find f l1 with Some x => Some x | None => find f l2 end.
Proof. induction l1 as [|x l1 IH]; simpl; [done|]. by destruct (f x). Qed.

Lemma find_row_machine_blocks ms els sch dp el :
  NoDup (map fst ms) → (sch, dp) ∈ ms → el ∈ els →
  find_row (flat_map (machine_rows con els) ms) sch el
  = Some (build_row sch dp el (fetchone con dp el)).
Proof.
  unfold find_row.
  induction ms as [|m ms IH]; intros Hnd Hm Hel.
  - by apply elem_of_nil in Hm.
  - cbn [map flat_map] in *. apply NoDup_cons in Hnd as [Hfresh Hnd].
    rewrite find_app. apply elem_of_cons in Hm as [<-|Hm].
    + by rewrite find_in_machine_rows.
    + rewrite find_not_in_machine_rows; [by apply IH|].
      intros Heq. apply Hfresh. apply list_elem_of_In, in_map_iff.
      exists (sch, dp). split; [done|by apply list_elem_of_In].
Qed.

Lemma filter_machine_rows_same els sch dp :
  filter (λ r, String.eqb (Schuler r) sch = true) (machine_rows con els (sch, dp))
  = machine_rows con els (sch, dp).
Proof.
  unfold machine_rows. cbn [fst snd]. induction els as [|e els IH]; [done|].
  cbn [map]. rewrite filter_cons_True by apply String.eqb_refl. by rewrite IH.
Qed.

Lemma filter_machine_rows_other els m sch :
  fst m ≠ sch →
  filter (λ r, String.eqb (Schuler r) sch = true) (machine_rows con els m) = [].
Proof.
  intros Hne. apply filter_none. intros r Hr.
  apply list_elem_of_In, in_map_iff in Hr as (e & <- & _). cbn [build_row Schuler].
  apply String.eqb_neq in Hne. by rewrite Hne.
Qed.

(** Filtering the rows by machine name gives that machine's block. *)
Lemma filter_machine_blocks ms els sch dp :
  NoDup (map fst ms) → (sch, dp) ∈ ms →
  filter (λ r, String.eqb (Schuler r) sch = true) (flat_map (machine_rows con els) ms)
  = machine_rows con els (sch, dp).
Proof.
  induction ms as [|m ms IH]; intros Hnd Hm.
  - by apply elem_of_nil in Hm.
  - cbn [map flat_map] in *. apply NoDup_cons in Hnd as [Hfresh Hnd].
    rewrite filter_app. apply elem_of_cons in Hm as [<-|Hm].
    + rewrite filter_machine_rows_same.
      rewrite filter_none; [by rewrite app_nil_r|].
      intros r Hr Hs. apply Hfresh.
      apply list_elem_of_In, in_flat_map in Hr as (m' & Hm' & Hr).
      apply in_map_iff in Hr as (e & <- & _). cbn [build_row Schuler] in Hs.
      apply String.eqb_eq in Hs. cbn [fst]. rewrite <- Hs.
      apply list_elem_of_In, in_map. done.
    + rewrite filter_machine_rows_other; [by apply IH|].
      intros Heq. apply Hfresh. apply list_elem_of_In, in_map_iff.
      exists (sch, dp). split; [done|by apply list_elem_of_In].
Qed.

(** Among the rows of one machine, an element that occurs once in [els]
    has one row. *)
Lemma filter_el_machine_rows els sch dp el :
  NoDup els → el ∈ els →
  filter (λ r, EL_ID r = el) (machine_rows con els (sch, dp))
  = [build_row sch dp el (fetchone con dp el)].
Proof.
  unfold machine_rows. cbn [fst snd]. induction els as [|e els IH]; intros Hnd Hin.
  - by apply elem_of_nil in Hin.
  - apply NoDup_cons in Hnd as [Hfresh Hnd]. cbn [map].
    apply elem_of_cons in Hin as [->|Hin].
    + rewrite filter_cons_True by done. f_equal.
      apply filter_none. intros r Hr Heq.
      apply list_elem_of_In, in_map_iff in Hr as (e' & <- & He').
      cbn [build_row EL_ID] in Heq. subst e'. by apply Hfresh, list_elem_of_In.
    + rewrite filter_cons_False; [by apply IH|].
      cbn [build_row EL_ID]. intros ->. done.
Qed.

(** Exactly one row for a configured pair. *)
Lemma one_row_per_pair ms els sch dp el :
  NoDup (map fst ms) → NoDup els → (sch, dp) ∈ ms → el ∈ els →
  filter (λ r, Schuler r = sch ∧ EL_ID r = el) (flat_map (machine_rows con els) ms)
  = [build_row sch dp el (fetchone con dp el)].
Proof.
  intros Hms Hels Hm Hel.
  rewrite <- (filter_el_machine_rows els sch dp el Hels Hel).
  rewrite <- (filter_machine_blocks ms els sch dp Hms Hm).
  rewrite list_filter_filter. apply list_filter_iff.
  intros r. rewrite String.eqb_eq. tauto.
Qed.
End BuildRows.

(** ** The loops of the presenters *)

Lemma dict_getitem_elem (d : list (string * Z)) k v :
  NoDup (map fst d) → (k, v) ∈ d → dict_getitem d k = Return v.
Proof.
  induction d as [|[k' v'] d IH]; intros Hnd Hin.
  - by apply elem_of_nil in Hin.
  - simpl in *. apply NoDup_cons in Hnd as [Hfresh Hnd].
    apply elem_of_cons in Hin as [Heq|Hin].
    + injection Heq as -> ->. by rewrite String.eqb_refl.
    + destruct (String.eqb_spec k' k) as [->|_]; [|by apply IH].
      exfalso. apply Hfresh. apply list_elem_of_In, in_map_iff.
      exists (k, v). split; [done|by apply list_elem_of_In].
Qed.

Lemma dict_setitem_fresh {V} (d : list (string * V)) k v :
  k ∉ map fst d → dict_setitem d k v = (d ++ [(k, v)])%list.
Proof.
  induction d as [|[k' v'] d IH]; intros Hk; [done|].
  simpl in *. apply not_elem_of_cons in Hk as [Hne Hk].
  destruct (String.eqb_spec k' k) as [->|_]; [done|]. by rewrite IH.
Qed.

Lemma api_schuler_loop_app rows ms out :
  NoDup (map fst out ++ map fst ms) →
  api_schuler_loop rows ms out
  = (out ++ map (λ m, entry_of_rows m
                        (filter (λ r, String.eqb (Schuler r) (fst m) = true) rows))
               ms)%list.
Proof.
  unfold api_schuler_loop. revert out.
  induction ms as [|[sch dp] ms IH]; intros out Hnd; simpl.
  - by rewrite app_nil_r.
  - rewrite dict_setitem_fresh.
    + rewrite IH.
      * by rewrite <- app_assoc.
      * rewrite map_app. simpl. rewrite <- app_assoc. done.
    + simpl in Hnd. apply NoDup_app in Hnd as (_ & Hdisj & _).
      intros Hin. apply (Hdisj sch Hin). left.
Qed.

Lemma dashboard_sec_elements_app rows sch els sec :
  dashboard_sec_elements rows sch els sec
  = (sec ++ map (dashboard_tr rows sch) els)%list.
Proof.
  unfold dashboard_sec_elements. revert sec.
  induction els as [|el els IH]; intros sec; simpl.
  - by rewrite app_nil_r.
  - rewrite IH. by rewrite <- app_assoc.
Qed.

Lemma dashboard_sections_app rows (g : string * Z → string) ms sections :
  (∀ m, m ∈ ms → dashboard_section rows (fst m) = Return (g m)) →
  dashboard_sections rows (map fst ms) sections
  = Return (sections ++ map g ms)%list.
Proof.
  unfold dashboard_sections. revert sections.
  induction ms as [|m ms IH]; intros sections Hg; simpl.
  - by rewrite app_nil_r.
  - rewrite (Hg m) by left. simpl.
    change (Return (sections ++ [g m])%list) with (mret (M:=outcome) (sections ++ [g m])%list).
    rewrite IH by (intros m' Hm'; apply Hg; by right).
    by rewrite <- app_assoc.
Qed.

(** The [<tr>] that the search-based loop emits for a found row is the
    row's own [<tr>], provided the row carries the label of its element. *)
Lemma dashboard_tr_found rows sch el r :
  find_row rows sch el = Some r →
  DPELEMENT r = dict_get DPELEMENT_BY_EL el (el_label el) →
  dashboard_tr rows sch el = tr_of_row r.
Proof.
  intros Hf Hl. unfold dashboard_tr, tr_of_row, cell_text, field_text.
  rewrite Hf, Hl. reflexivity.
Qed.

(** ** Facts about the configuration *)

Lemma SCHULERS_keys_NoDup : NoDup (map fst SCHULERS).
Proof. compute_done. Qed.

Lemma EL_IDS_NoDup : NoDup EL_IDS.
Proof. compute_done. Qed.

Lemma SCHULERS_in_int64 m : m ∈ SCHULERS → in_int64 (snd m) = true.
Proof.
  intros H. repeat (apply elem_of_cons in H as [->|H]; [done|]).
  by apply elem_of_nil in H.
Qed.

Lemma EL_IDS_in_int64 el : el ∈ EL_IDS → in_int64 el = true.
Proof.
  intros H. repeat (apply elem_of_cons in H as [->|H]; [done|]).
  by apply elem_of_nil in H.
Qed.

Lemma build_rows_connected path table off :
  build_rows (mkHost path (Some table) off)
  = build_rows_machines (mkConnection table off) SCHULERS EL_IDS [].
Proof. reflexivity. Qed.

(** [build_rows] returns exactly when every lookup can be read, and then
    the blocks of the machines in order. *)
Lemma build_rows_Return path table off rows :
  build_rows (mkHost path (Some table) off) = Return rows ↔
  store_readable (mkConnection table off) = true
  ∧ rows = flat_map (machine_rows (mkConnection table off) EL_IDS) SCHULERS.
Proof. rewrite build_rows_connected. apply build_rows_machines_Return. Qed.

Lemma build_rows_readable path table off :
  store_readable (mkConnection table off) = true →
  build_rows (mkHost path (Some table) off)
  = Return (flat_map (machine_rows (mkConnection table off) EL_IDS) SCHULERS).
Proof. intros H. by apply build_rows_Return. Qed.

Lemma build_rows_unreadable path table off :
  store_readable (mkConnection table off) = false →
  build_rows (mkHost path (Some table) off) = Raise OperationalError.
Proof.
  intros H. rewrite build_rows_connected.
  destruct (build_rows_machines_raise _ _ _ [] H) as (m & el & Hm & Hel & _ & ->).
  by rewrite SCHULERS_in_int64, EL_IDS_in_int64.
Qed.

Lemma configured_row r con :
  r ∈ flat_map (machine_rows con EL_IDS) SCHULERS →
  ∃ sch dp el, (sch, dp) ∈ SCHULERS ∧ el ∈ EL_IDS
               ∧ r = build_row sch dp el (fetchone con dp el).
Proof.
  intros Hr. apply list_elem_of_In, in_flat_map in Hr as ([sch dp] & Hm & Hr).
  apply in_map_iff in Hr as (el & <- & Hel).
  exists sch, dp, el. split_and!; [by apply list_elem_of_In..|done].
Qed.

Lemma build_row_no_record con sch dp el :
  (∀ t, t ∈ con_table con → ¬ matches dp el t) →
  Valor (build_row sch dp el (fetchone con dp el)) = None
  ∧ FechaHora (build_row sch dp el (fetchone con dp el)) = None.
Proof.
  intros H. apply fetchone_None in H. unfold build_row. by rewrite H.
Qed.

Lemma dashboard_tr_build con sch dp el :
  (sch, dp) ∈ SCHULERS → el ∈ EL_IDS →
  dashboard_tr (flat_map (machine_rows con EL_IDS) SCHULERS) sch el
  = tr_of_row (build_row sch dp el (fetchone con dp el)).
Proof.
  intros Hm Hel. apply dashboard_tr_found; [|done].
  by apply find_row_machine_blocks; [apply SCHULERS_keys_NoDup|..].
Qed.

Lemma dashboard_section_build con m :
  m ∈ SCHULERS →
  dashboard_section (flat_map (machine_rows con EL_IDS) SCHULERS) (fst m)
  = Return (section_of_rows m (machine_rows con EL_IDS m)).
Proof.
  destruct m as [sch dp]. intros Hm. unfold dashboard_section. cbn [fst].
  rewrite (dict_getitem_elem SCHULERS sch dp SCHULERS_keys_NoDup Hm).
  unfold mbind, outcome_bind, mret, outcome_ret.
  rewrite dashboard_sec_elements_app.
  unfold section_of_rows, machine_rows. cbn [fst snd].
  rewrite map_map. do 2 f_equal. rewrite <- app_assoc.
  apply (f_equal (app _)), (f_equal (λ l, app l _)).
  apply map_ext_in. intros el Hel.
  apply dashboard_tr_build; [done|by apply list_elem_of_In].
Qed.

Lemma api_schuler_Return path table off rows :
  build_rows (mkHost path (Some table) off) = Return rows →
  api_schuler (mkHost path (Some table) off)
  = Return (map (λ m, entry_of_rows m (machine_rows (mkConnection table off) EL_IDS m))
                SCHULERS).
Proof.
  intros Hb. unfold api_schuler. rewrite Hb. apply build_rows_Return in Hb as [_ ->].
  unfold mbind, outcome_bind, mret, outcome_ret. apply (f_equal Return).
  rewrite api_schuler_loop_app by apply SCHULERS_keys_NoDup.
  rewrite app_nil_l. apply map_ext_in. intros [sch dp] Hm. cbn [fst]. f_equal.
  apply filter_machine_blocks; [apply SCHULERS_keys_NoDup|by apply list_elem_of_In].
Qed.

Lemma dashboard_schuler_Return path table off rows :
  build_rows (mkHost path (Some table) off) = Return rows →
  dashboard_schuler (mkHost path (Some table) off)
  = Return (dashboard_html
              (map (λ m, section_of_rows m
                           (machine_rows (mkConnection table off) EL_IDS m))
                   SCHULERS)).
Proof.
  intros Hb. unfold dashboard_schuler. rewrite Hb.
  apply build_rows_Return in Hb as [_ ->].
  unfold mbind at 1, outcome_bind at 1.
  rewrite (dashboard_sections_app _
             (λ m, section_of_rows m (machine_rows (mkConnection table off) EL_IDS m))).
  - done.
  - intros m Hm. by apply dashboard_section_build.
Qed.

(** A presenter raises what [build_rows] raises. *)
Lemma presenters_Raise h e :
  build_rows h = Raise e → api_schuler h = Raise e ∧ dashboard_schuler h = Raise e.
Proof. intros Hb. unfold api_schuler, dashboard_schuler. by rewrite Hb. Qed.

(** ** Row assembly *)

(** C2, as the code has it: when every record that a lookup of a configured
    pair selects has a value that is NULL or UTF-8 text, which includes the
    empty store, [build_rows] returns |machines| x |elements| rows; every
    row belongs to a configured pair, every configured pair has exactly one
    row, and that row has null value and null timestamp when the store has
    no record for the pair.  When some selected value is not UTF-8,
    [build_rows] raises and returns no rows. *)
Theorem build_rows_one_row_per_pair (path : string) (table : list TableRow) (off : Z → Z) :
  (store_readable (mkConnection table off) = true →
   ∃ rows,
     build_rows (mkHost path (Some table) off) = Return rows
     ∧ length rows = (length SCHULERS * length EL_IDS)%nat
     ∧ (∀ r, r ∈ rows → (Schuler r, DP r) ∈ SCHULERS ∧ EL_ID r ∈ EL_IDS)
     ∧ (∀ sch dp el, (sch, dp) ∈ SCHULERS → el ∈ EL_IDS →
          ∃ r, filter (λ x, Schuler x = sch ∧ EL_ID x = el) rows = [r]
               ∧ Schuler r = sch ∧ DP r = dp ∧ EL_ID r = el
               ∧ ((∀ t, t ∈ table → ¬ matches dp el t) →
                  Valor r = None ∧ FechaHora r = None)))
  ∧ (store_readable (mkConnection table off) = false →
     build_rows (mkHost path (Some table) off) = Raise OperationalError).
Proof.
  set (con := mkConnection table off). split; [|apply build_rows_unreadable].
  intros Hok. exists (flat_map (machine_rows con EL_IDS) SCHULERS).
  split_and!.
  - by apply build_rows_readable.
  - apply length_machine_blocks.
  - intros r Hr. apply configured_row in Hr as (sch & dp & el & Hm & Hel & ->).
    by split.
  - intros sch dp el Hm Hel.
    exists (build_row sch dp el (fetchone con dp el)). split_and!; try done.
    + by apply one_row_per_pair; [apply SCHULERS_keys_NoDup|apply EL_IDS_NoDup|..].
    + intros Hnone. by apply build_row_no_record.
Qed.

Lemma build_rows_one_row_per_pair_witness :
  ∃ rows r,
    build_rows (mkHost "last_value.sqlite" (Some []) (λ _, 0)) = Return rows
    ∧ length rows = 55%nat
    ∧ filter (λ x, Schuler x = "Schuler2" ∧ EL_ID x = 48) rows = [r]
    ∧ Valor r = None ∧ FechaHora r = None.
Proof.
  destruct (build_rows_one_row_per_pair "last_value.sqlite" [] (λ _, 0))
    as [Hret _].
  destruct Hret as (rows & Hb & Hlen & _ & Hone); [reflexivity|].
  destruct (Hone "Schuler2" 1028 48) as (r & Hr & _ & _ & _ & Hnull).
  - compute_done.
  - compute_done.
  - exists rows, r. split_and!; try done.
    + apply Hnull. intros t Ht. by apply elem_of_nil in Ht.
    + apply Hnull. intros t Ht. by apply elem_of_nil in Ht.
Defined.

(** C2 fails as stated: a record of a configured pair whose value is the
    byte FF, which is not UTF-8, makes [build_rows] raise instead of
    returning its 55 rows. *)
Lemma build_rows_every_store_counterexample :
  build_rows (mkHost "last_value.sqlite"
                (Some [mkTableRow 982 69 (SqlBlob (String "255"%char ""))
                                  (Some 1704103200000000000)])
                (λ _, 0))
  = Raise OperationalError
  ∧ ¬ ∃ rows,
        build_rows (mkHost "last_value.sqlite"
                      (Some [mkTableRow 982 69 (SqlBlob (String "255"%char ""))
                                        (Some 1704103200000000000)])
                      (λ _, 0))
        = Return rows.
Proof.
  split; [vm_compute; reflexivity|].
  intros [rows H]. vm_compute in H. discriminate H.
Qed.

(** ** Order of rows and of what the presenters emit *)

Lemma keys_of_machine_blocks con ms els :
  map (λ r, (Schuler r, EL_ID r)) (flat_map (machine_rows con els) ms)
  = flat_map (λ m, map (λ el, (fst m, el)) els) ms.
Proof.
  induction ms as [|m ms IH]; [done|].
  cbn [flat_map]. rewrite List.map_app, IH. f_equal.
  unfold machine_rows. by rewrite map_map.
Qed.

(** C3: whenever [build_rows] produces rows, which it does for every store
    whose selected values can be read, the rows are the machines' blocks in
    the order of [SCHULERS], each block in the order of [EL_IDS]; the JSON
    object lists the machines in that order with each block unchanged; the
    HTML document is the fixed head, then the sections of the machines in
    that order, each with its table rows in the order of the block, then
    the fixed tail. *)
Theorem presenters_keep_configured_order (path : string) (table : list TableRow)
    (off : Z → Z) :
  let h := mkHost path (Some table) off in
  let con := mkConnection table off in
  (store_readable con = true → ∃ rows, build_rows h = Return rows)
  ∧ ∀ rows, build_rows h = Return rows →
      rows = flat_map (machine_rows con EL_IDS) SCHULERS
      ∧ map (λ r, (Schuler r, EL_ID r)) rows
        = flat_map (λ m, map (λ el, (fst m, el)) EL_IDS) SCHULERS
      ∧ api_schuler h
        = Return (map (λ m, entry_of_rows m (machine_rows con EL_IDS m)) SCHULERS)
      ∧ dashboard_schuler h
        = Return ("<!doctype html><html><head><meta charset='utf-8'>"
                  ++ "<title>Dashboard Schuler</title>"
                  ++ dashboard_style ++ "</head><body>"
                  ++ "<h1>Dashboard Schuler</h1>"
                  ++ String.concat ""
                       (map (λ m, section_of_rows m (machine_rows con EL_IDS m))
                            SCHULERS)
                  ++ "</body></html>").
Proof.
  intros h con. subst h con. split.
  - intros Hok. eexists. by apply build_rows_readable.
  - intros rows Hb. pose proof Hb as Hrows. apply build_rows_Return in Hrows as [_ ->].
    split_and!.
    + done.
    + apply keys_of_machine_blocks.
    + by apply (api_schuler_Return path table off _ Hb).
    + by rewrite (dashboard_schuler_Return path table off _ Hb).
Qed.

Lemma presenters_keep_configured_order_witness :
  ∃ rows out,
    build_rows (mkHost "last_value.sqlite" (Some []) (λ _, 0)) = Return rows
    ∧ api_schuler (mkHost "last_value.sqlite" (Some []) (λ _, 0)) = Return out
    ∧ map fst out = ["Schuler1"; "Schuler2"; "Schuler3"; "Schuler4"; "Schuler5"].
Proof.
  destruct (presenters_keep_configured_order "last_value.sqlite" [] (λ _, 0))
    as [Hret Hall].
  destruct Hret as [rows Hb]; [reflexivity|].
  destruct (Hall rows Hb) as (_ & _ & Hapi & _).
  eexists rows, _. split; [exact Hb|]. split; [exact Hapi|]. reflexivity.
Defined.

(** ** Failures *)

(** C5: with no file at [DB_PATH], [build_rows] raises the 500 error of
    [get_conn]; the JSON and the HTML endpoints answer with that error and
    status 500, not with a body.  A store that is there but holds no record
    does not raise: [build_rows] returns its rows. *)
Theorem missing_store_is_server_error (path : string) (off : Z → Z) :
  let h := mkHost path None off in
  let e := HTTPException 500 ("No se encontró la BD en: " ++ path) in
  build_rows h = Raise e
  ∧ api_schuler h = Raise e
  ∧ dashboard_schuler h = Raise e
  ∧ response_status (api_schuler h) = 500
  ∧ ∃ rows, build_rows (mkHost path (Some []) off) = Return rows
            ∧ length rows = 55%nat.
Proof.
  intros h e. split_and!; try done.
  eexists. split; [by apply build_rows_readable|].
  apply length_machine_blocks.
Qed.

(** C9, as the code has it: with the store open, an id that does not fit a
    signed 64-bit integer makes the single-pair endpoint fail with a server
    error; for ids that fit, the endpoint raises 404 when no record has the
    two keys, and when one has, it returns the selected record if the
    record's value is NULL or UTF-8 text and fails with a server error if
    it is not. *)
Theorem get_value_by_path_not_found (path : string) (table : list TableRow)
    (off : Z → Z) (dp el : Z) :
  let h := mkHost path (Some table) off in
  (in_int64 dp && in_int64 el = false →
   get_value_by_path h dp el = Raise OverflowError
   ∧ response_status (get_value_by_path h dp el) = 500)
  ∧ (in_int64 dp && in_int64 el = true →
     (∀ t, t ∈ table → ¬ matches dp el t) →
     get_value_by_path h dp el
     = Raise (HTTPException 404
                ("No hay valor para dp_id=" ++ pretty dp ++ " y el_id=" ++ pretty el))
     ∧ response_status (get_value_by_path h dp el) = 404)
  ∧ (in_int64 dp && in_int64 el = true →
     (∃ t, t ∈ table ∧ matches dp el t) →
     ∃ r, fetchone (mkConnection table off) dp el = Some r
          ∧ dp_id r = dp ∧ el_id r = el
          ∧ (decodes r = true → get_value_by_path h dp el = Return r)
          ∧ (decodes r = false →
             get_value_by_path h dp el = Raise OperationalError
             ∧ response_status (get_value_by_path h dp el) = 500)).
Proof.
  intros h. subst h. unfold get_value_by_path, get_conn. cbn [db_file utc_offset].
  unfold mbind, outcome_bind, fetch_last. split_and!.
  - by intros ->.
  - intros -> Hnone.
    assert (E : fetchone (mkConnection table off) dp el = None)
      by (by apply fetchone_None).
    by rewrite E.
  - intros -> (t & Ht & Hm).
    destruct (fetchone_is_Some (mkConnection table off) dp el t Ht Hm) as [r E].
    exists r. rewrite E. split_and!.
    + done.
    + apply fetchone_Some in E as (t' & _ & [Hdp _] & ->). done.
    + apply fetchone_Some in E as (t' & _ & [_ Hel] & ->). done.
    + by intros ->.
    + by intros ->.
Qed.

Lemma get_value_by_path_not_found_witness :
  response_status
    (get_value_by_path (mkHost "last_value.sqlite" (Some []) (λ _, 0)) 1028 48) = 404
  ∧ response_status
      (get_value_by_path (mkHost "last_value.sqlite" (Some []) (λ _, 0))
                         9223372036854775808 48) = 500
  ∧ ∃ r, get_value_by_path
           (mkHost "last_value.sqlite"
                   (Some [mkTableRow 982 69 (SqlReal "12.5") (Some 1704103200000000000)])
                   (λ _, 0)) 982 69 = Return r
         ∧ value r = Some "12.5".
Proof.
  split_and!.
  - apply (get_value_by_path_not_found "last_value.sqlite" [] (λ _, 0) 1028 48);
      [reflexivity|].
    intros t Ht. by apply elem_of_nil in Ht.
  - by apply (get_value_by_path_not_found "last_value.sqlite" [] (λ _, 0)
                9223372036854775808 48).
  - destruct (get_value_by_path_not_found "last_value.sqlite"
                [mkTableRow 982 69 (SqlReal "12.5") (Some 1704103200000000000)]
                (λ _, 0) 982 69) as (_ & _ & Hsome).
    destruct Hsome as (r & Hf & _ & _ & Hret & _); [reflexivity| |].
    + eexists. split; [left|done].
    + vm_compute in Hf. injection Hf as <-.
      eexists. split; [by apply Hret|reflexivity].
Defined.

(** C9 fails as stated: the store has no record for the pair
    (9223372036854775808, 48), yet the endpoint does not report 'not found'
    but fails with a server error; and a record that exists is not returned
    when its value is the byte FF. *)
Lemma get_value_by_path_not_found_counterexample :
  (∀ t, t ∈ [] → ¬ matches 9223372036854775808 48 t)
  ∧ get_value_by_path (mkHost "last_value.sqlite" (Some []) (λ _, 0))
                      9223372036854775808 48
    = Raise OverflowError
  ∧ response_status
      (get_value_by_path (mkHost "last_value.sqlite" (Some []) (λ _, 0))
                         9223372036854775808 48) ≠ 404
  ∧ get_value_by_path
      (mkHost "last_value.sqlite"
              (Some [mkTableRow 982 69 (SqlBlob (String "255"%char ""))
                                (Some 1704103200000000000)])
              (λ _, 0)) 982 69
    = Raise OperationalError.
Proof.
  split_and!.
  - intros t Ht. by apply elem_of_nil in Ht.
  - reflexivity.
  - vm_compute. discriminate.
  - vm_compute. reflexivity.
Qed.

(** ** Labels *)

(** C6: an element without an entry in [DPELEMENT_BY_EL] gets the label
    [el_] followed by its decimal number, in the row that [build_rows]
    appends, whatever the lookup returned, and in the first cell of its
    [<tr>]; an element with an entry gets that entry in both places. *)
Theorem label_fallback (r : option ResultRow) (rows : list Row) (sch : string)
    (dp el : Z) :
  (DPELEMENT_BY_EL !! el = None →
   DPELEMENT (build_row sch dp el r) = "el_" ++ pretty el
   ∧ ∃ rest, dashboard_tr rows sch el = "<tr><td>el_" ++ pretty el ++ "</td>" ++ rest)
  ∧ (∀ l, DPELEMENT_BY_EL !! el = Some l →
     DPELEMENT (build_row sch dp el r) = l
     ∧ ∃ rest, dashboard_tr rows sch el = "<tr><td>" ++ l ++ "</td>" ++ rest).
Proof.
  split.
  - intros Hnone. unfold build_row, dashboard_tr, dict_get, el_label.
    cbn [DPELEMENT]. rewrite Hnone. cbn [default]. split; [done|]. by eexists.
  - intros l Hsome. unfold build_row, dashboard_tr, dict_get.
    cbn [DPELEMENT]. rewrite Hsome. cbn [default]. split; [done|]. by eexists.
Qed.

Lemma label_fallback_witness :
  DPELEMENT (build_row "Schuler1" 982 999 None) = "el_999"
  ∧ (∃ rest, dashboard_tr [] "Schuler1" 999 = "<tr><td>el_999</td>" ++ rest)
  ∧ dashboard_tr [] "Schuler1" 999 = "<tr><td>el_999</td><td></td><td></td></tr>"
  ∧ DPELEMENT (build_row "Schuler1" 982 137 None) = "TiempoMuerto".
Proof.
  destruct (label_fallback None [] "Schuler1" 982 999) as [Hnone _].
  destruct (label_fallback None [] "Schuler1" 982 137) as [_ Hsome].
  destruct Hnone as [H1 H2]; [reflexivity|].
  destruct (Hsome "TiempoMuerto") as [H3 _]; [reflexivity|].
  split_and!; [exact H1|exact H2|reflexivity|exact H3].
Defined.

(** ** Cells of the HTML table *)

(** C7: in the [<tr>] of a found row, the value cell and the timestamp
    cell hold the field's text, and nothing when the field is null. *)
Theorem dashboard_null_cells_empty (rows : list Row) (sch : string) (el : Z) (r : Row) :
  find_row rows sch el = Some r →
  ∃ val ts,
    dashboard_tr rows sch el
    = "<tr><td>" ++ dict_get DPELEMENT_BY_EL el (el_label el) ++ "</td><td>" ++ val
      ++ "</td><td>" ++ ts ++ "</td></tr>"
    ∧ (Valor r = None → val = "")
    ∧ (∀ v, Valor r = Some v → val = v)
    ∧ (FechaHora r = None → ts = "")
    ∧ (∀ t, FechaHora r = Some t → ts = t).
Proof.
  intros Hf. exists (cell_text (Some r) Valor), (cell_text (Some r) FechaHora).
  split_and!.
  - unfold dashboard_tr. rewrite Hf. reflexivity.
  - intros E. simpl. by rewrite E.
  - intros v E. simpl. by rewrite E.
  - intros E. simpl. by rewrite E.
  - intros t E. simpl. by rewrite E.
Qed.

Lemma dashboard_null_cells_empty_witness :
  ∃ val ts,
    dashboard_tr [mkRow "Schuler1" 982 "Barras.VelocidadAcunado.Valor" 69
                        (Some "12.5") None] "Schuler1" 69
    = "<tr><td>Barras.VelocidadAcunado.Valor</td><td>" ++ val
      ++ "</td><td>" ++ ts ++ "</td></tr>"
    ∧ val = "12.5" ∧ ts = "".
Proof.
  destruct (dashboard_null_cells_empty
              [mkRow "Schuler1" 982 "Barras.VelocidadAcunado.Valor" 69
                     (Some "12.5") None] "Schuler1" 69
              (mkRow "Schuler1" 982 "Barras.VelocidadAcunado.Valor" 69
                     (Some "12.5") None))
    as (val & ts & Htr & _ & Hv & Ht & _); [reflexivity|].
  exists val, ts. split_and!; [exact Htr|by apply Hv|by apply Ht].
Defined.

(** C8, as the code has it: the value of a found row goes into its cell
    byte for byte, as the label does; nothing is escaped. *)
Theorem dashboard_value_verbatim (rows : list Row) (sch : string) (el : Z)
    (r : Row) (v : string) :
  find_row rows sch el = Some r → Valor r = Some v →
  dashboard_tr rows sch el
  = "<tr><td>" ++ dict_get DPELEMENT_BY_EL el (el_label el) ++ "</td><td>" ++ v
    ++ "</td><td>" ++ cell_text (Some r) FechaHora ++ "</td></tr>".
Proof.
  intros Hf Hv. unfold dashboard_tr. rewrite Hf. simpl. rewrite Hv. reflexivity.
Qed.

Lemma dashboard_value_verbatim_witness :
  dashboard_tr [mkRow "Schuler1" 982 "Barras.VelocidadAcunado.Valor" 69
                      (Some "<b>") None] "Schuler1" 69
  = "<tr><td>Barras.VelocidadAcunado.Valor</td><td><b></td><td></td></tr>".
Proof.
  apply (dashboard_value_verbatim
           [mkRow "Schuler1" 982 "Barras.VelocidadAcunado.Valor" 69 (Some "<b>") None]
           "Schuler1" 69
           (mkRow "Schuler1" 982 "Barras.VelocidadAcunado.Valor" 69 (Some "<b>") None)
           "<b>"); reflexivity.
Defined.

(** C8 fails as stated: a stored value [<b>] reaches the document as
    [<b>], not as its escaped form. *)
Lemma dashboard_value_escaped_counterexample :
  ∃ rows r,
    build_rows (mkHost "last_value.sqlite"
                  (Some [mkTableRow 982 69 (SqlText "<b>") (Some 0)]) (λ _, 0))
    = Return rows
    ∧ find_row rows "Schuler1" 69 = Some r
    ∧ Valor r = Some "<b>"
    ∧ html_escape "<b>" = "&lt;b&gt;"
    ∧ dashboard_tr rows "Schuler1" 69
      = "<tr><td>Barras.VelocidadAcunado.Valor</td><td><b></td><td>1970-01-01 00:00:00</td></tr>"
    ∧ dashboard_tr rows "Schuler1" 69
      ≠ "<tr><td>Barras.VelocidadAcunado.Valor</td><td>" ++ html_escape "<b>"
        ++ "</td><td>1970-01-01 00:00:00</td></tr>".
Proof.
  eexists _, _. split_and!.
  - vm_compute. reflexivity.
  - vm_compute. reflexivity.
  - reflexivity.
  - reflexivity.
  - vm_compute. reflexivity.
  - vm_compute. discriminate.
Qed.

(** ** Null fields of a row *)

Lemma cast_as_text_None v : cast_as_text v = None ↔ v = SqlNull.
Proof. by destruct v. Qed.

Lemma time_text_None off t :
  time_text off t = None ↔
  t_system_time t = None
  ∨ ∃ ns, t_system_time t = Some ns
          ∧ unixepoch_valid (Z.quot ns 1000000000) = false.
Proof.
  unfold time_text, strftime_local, sql_div.
  destruct (t_system_time t) as [ns|]; [|split; [by left|done]].
  destruct (unixepoch_valid (Z.quot ns 1000000000)) eqn:E.
  - split; [done|]. intros [H|(ns' & [= <-] & H)]; [done|congruence].
  - split; [|done]. intros _. right. by exists ns.
Qed.

(** The two fields of a row come from one record or from its absence. *)
Lemma build_row_from_table con sch dp el :
  ((∀ t, t ∈ con_table con → ¬ matches dp el t)
   ∧ Valor (build_row sch dp el (fetchone con dp el)) = None
   ∧ FechaHora (build_row sch dp el (fetchone con dp el)) = None)
  ∨ (∃ t, t ∈ con_table con ∧ matches dp el t
          ∧ fetchone con dp el = Some (sql_select (con_utc_offset con) t)
          ∧ Valor (build_row sch dp el (fetchone con dp el)) = cast_as_text (t_value t)
          ∧ FechaHora (build_row sch dp el (fetchone con dp el))
            = time_text (con_utc_offset con) t).
Proof.
  destruct (fetchone con dp el) as [r|] eqn:E.
  - right. apply fetchone_Some in E as (t & Ht & Hm & ->). by exists t.
  - left. split_and!; try done. by apply fetchone_None.
Qed.

(** C4, as the code has it: a row for a pair without a record has value
    and timestamp null; a row for a pair with records has its value null
    exactly when the stored value of the selected record is NULL, and its
    timestamp null exactly when the stored time of that record is NULL or
    outside SQLite's date range; so the row's value is null if and only if
    its timestamp is null exactly when the selected record has a NULL value
    if and only if its time has no text form. *)
Theorem null_pairing_when_records_paired (path : string) (table : list TableRow)
    (off : Z → Z) (rows : list Row) :
  build_rows (mkHost path (Some table) off) = Return rows →
  ∀ r, r ∈ rows →
    ((∀ t, t ∈ table → ¬ matches (DP r) (EL_ID r) t)
     ∧ Valor r = None ∧ FechaHora r = None)
    ∨ (∃ t, t ∈ table ∧ matches (DP r) (EL_ID r) t
            ∧ fetchone (mkConnection table off) (DP r) (EL_ID r)
              = Some (sql_select off t)
            ∧ (Valor r = None ↔ t_value t = SqlNull)
            ∧ (FechaHora r = None ↔
               t_system_time t = None
               ∨ ∃ ns, t_system_time t = Some ns
                       ∧ unixepoch_valid (Z.quot ns 1000000000) = false)
            ∧ ((Valor r = None ↔ FechaHora r = None)
               ↔ (t_value t = SqlNull ↔ time_text off t = None))).
Proof.
  intros Hb r Hr. apply build_rows_Return in Hb as [_ ->].
  apply configured_row in Hr as (sch & dp & el & _ & _ & ->).
  change (DP (build_row sch dp el (fetchone (mkConnection table off) dp el))) with dp.
  change (EL_ID (build_row sch dp el (fetchone (mkConnection table off) dp el))) with el.
  destruct (build_row_from_table (mkConnection table off) sch dp el)
    as [Hnone|(t & Ht & Hm & Hf & Hv & Hts)]; [by left|].
  right. exists t. cbn [con_table con_utc_offset] in *.
  rewrite Hv, Hts, cast_as_text_None, time_text_None. split_and!; done.
Qed.

Lemma null_pairing_when_records_paired_witness :
  ∃ rows r,
    build_rows (mkHost "last_value.sqlite"
                  (Some [mkTableRow 982 69 (SqlText "12.5") (Some 1704103200000000000)])
                  (λ _, 0)) = Return rows
    ∧ r ∈ rows ∧ Valor r = Some "12.5"
    ∧ ((∀ t, t ∈ [mkTableRow 982 69 (SqlText "12.5") (Some 1704103200000000000)] →
          ¬ matches (DP r) (EL_ID r) t)
       ∧ Valor r = None ∧ FechaHora r = None
       ∨ ∃ t, t ∈ [mkTableRow 982 69 (SqlText "12.5") (Some 1704103200000000000)]
              ∧ (Valor r = None ↔ t_value t = SqlNull)).
Proof.
  eexists _, (build_row "Schuler1" 982 69
                (Some (mkResultRow 982 69 (Some "12.5") (Some "2024-01-01 10:00:00")))).
  split; [vm_compute; reflexivity|]. split; [left|]. split; [reflexivity|].
  destruct (null_pairing_when_records_paired "last_value.sqlite"
              [mkTableRow 982 69 (SqlText "12.5") (Some 1704103200000000000)]
              (λ _, 0) _ eq_refl
              (build_row "Schuler1" 982 69
                 (Some (mkResultRow 982 69 (Some "12.5") (Some "2024-01-01 10:00:00")))))
    as [Hnone|(t & Ht & _ & _ & Hv & _)].
  - left.
  - by left.
  - right. by exists t.
Defined.

(** C4 fails as stated: a record with a NULL value and a stored time gives
    a row whose value is null and whose timestamp is not. *)
Lemma null_pairing_counterexample :
  ∃ rows r,
    build_rows (mkHost "last_value.sqlite"
                  (Some [mkTableRow 982 69 SqlNull (Some 1704103200000000000)])
                  (λ _, 0)) = Return rows
    ∧ r ∈ rows
    ∧ Valor r = None
    ∧ FechaHora r = Some "2024-01-01 10:00:00"
    ∧ ¬ (Valor r = None ↔ FechaHora r = None).
Proof.
  eexists _, _. split_and!.
  - vm_compute. reflexivity.
  - left.
  - reflexivity.
  - reflexivity.
  - intros [H _]. specialize (H eq_refl). discriminate H.
Qed.

(** ** The search of the HTML presenter *)







(** ** Which record [fetch_last] selects *)

Lemma key_le_Some x y : key_le (Some x) (Some y) ↔ String.le x y.
Proof.
  unfold key_le, String.le, String.leb. simpl.
  destruct (String.compare x y); simpl; split; try done.
Qed.

Lemma key_le_refl a : key_le a a.
Proof.
  destruct a as [x|]; [|done]. by apply key_le_Some.
Qed.

Lemma key_le_trans a b c : key_le a b → key_le b c → key_le a c.
Proof.
  destruct a as [x|], b as [y|], c as [z|]; try done.
  rewrite !key_le_Some. intros H1 H2. by etrans.
Qed.

Lemma sql_compare_Gt_le a b : sql_compare a b = Gt → key_le b a.
Proof.
  destruct a as [x|], b as [y|]; try done. simpl. intros H.
  unfold key_le. simpl. rewrite String.compare_antisym, H. done.
Qed.

Lemma head_order_insert x l :
  head (order_insert x l)
  = match head l with
    | None => Some x
    | Some y => match sql_compare (system_time y) (system_time x) with
                | Gt => Some y
                | _ => Some x
                end
    end.
Proof.
  destruct l as [|y l]; [done|]. simpl.
  by destruct (sql_compare (system_time y) (system_time x)).
Qed.

(** The first row after [ORDER BY system_time DESC] has a key that no row
    sorts after. *)
Lemma head_order_by_maximal rs r :
  head (order_by_system_time_desc rs) = Some r →
  ∀ x, x ∈ rs → key_le (system_time x) (system_time r).
Proof.
  unfold order_by_system_time_desc. revert r.
  induction rs as [|y rs IH]; intros r Hh x Hx.
  - by apply elem_of_nil in Hx.
  - simpl in Hh. rewrite head_order_insert in Hh.
    destruct (head (foldr order_insert [] rs)) as [z|] eqn:Ez.
    + specialize (IH z eq_refl).
      destruct (sql_compare (system_time z) (system_time y)) eqn:Ec;
        injection Hh as <-; apply elem_of_cons in Hx as [->|Hx].
      * apply key_le_refl.
      * eapply key_le_trans; [by apply IH|]. unfold key_le. by rewrite Ec.
      * apply key_le_refl.
      * eapply key_le_trans; [by apply IH|]. unfold key_le. by rewrite Ec.
      * by apply sql_compare_Gt_le.
      * by apply IH.
    + injection Hh as <-. apply head_None in Ez.
      apply order_by_nil_inv in Ez. subst rs.
      apply list_elem_of_singleton in Hx as ->. apply key_le_refl.
Qed.

(** What does hold of the statement: among the records with the two keys
    it yields one whose formatted time, a text with a resolution of one
    second in the host's time zone, sorts last. *)
Lemma fetchone_maximal_text con dp el r :
  fetchone con dp el = Some r →
  ∀ t, t ∈ con_table con → matches dp el t →
    key_le (time_text (con_utc_offset con) t) (system_time r).
Proof.
  unfold fetchone, SQL_LAST. rewrite head_limit_1. intros Hh t Ht Hm.
  apply (head_order_by_maximal _ _ Hh (sql_select (con_utc_offset con) t)).
  apply list_elem_of_In, in_map, list_elem_of_In, list_elem_of_filter.
  split; [by apply sql_where_matches|done].
Qed.

(** Two records whose times fall in different seconds: the later one is
    returned, whatever their order in the table. *)
Example fetch_last_later_second :
  let a := mkTableRow 982 69 (SqlText "old") (Some 1704103200000000000) in
  let b := mkTableRow 982 69 (SqlText "new") (Some 1704103201000000000) in
  fetch_last (mkConnection [a; b] (λ _, 0)) 982 69
  = Return (Some (mkResultRow 982 69 (Some "new") (Some "2024-01-01 10:00:01")))
  ∧ fetch_last (mkConnection [b; a] (λ _, 0)) 982 69
    = Return (Some (mkResultRow 982 69 (Some "new") (Some "2024-01-01 10:00:01"))).
Proof. split; vm_compute; reflexivity. Qed.

(** One stored record: [fetch_last] returns it and the row of its pair
    carries its value. *)
Example fetch_last_single_record :
  let con := mkConnection
               [mkTableRow 982 69 (SqlReal "12.5") (Some 1704103200000000000)]
               (λ _, 0) in
  fetch_last con 982 69
  = Return (Some (mkResultRow 982 69 (Some "12.5") (Some "2024-01-01 10:00:00")))
  ∧ ∃ rows r, build_rows (mkHost "last_value.sqlite" (Some (con_table con)) (λ _, 0))
              = Return rows
              ∧ find_row rows "Schuler1" 69 = Some r ∧ Valor r = Some "12.5".
Proof.
  split; [vm_compute; reflexivity|].
  eexists _, _. split_and!; vm_compute; reflexivity.
Qed.

(** C1 on two records of one pair stored half a second apart: the query
    sorts on the formatted text, both records format to the same second,
    and the one the scan meets first is returned, here the earlier one. *)
Theorem fetch_last_same_second_returns_first_scanned :
  let older := mkTableRow 982 69 (SqlText "old") (Some 1704103200000000000) in
  let newer := mkTableRow 982 69 (SqlText "new") (Some 1704103200500000000) in
  fetch_last (mkConnection [older; newer] (λ _, 0)) 982 69
  = Return (Some (mkResultRow 982 69 (Some "old") (Some "2024-01-01 10:00:00")))
  ∧ fetch_last (mkConnection [newer; older] (λ _, 0)) 982 69
    = Return (Some (mkResultRow 982 69 (Some "new") (Some "2024-01-01 10:00:00")))
  ∧ fetch_last (mkConnection [] (λ _, 0)) 982 69 = Return None.
Proof. split_and!; vm_compute; reflexivity. Qed.

(** * Further properties of the code *)

(** ** [fetch_last] *)

Lemma sql_compare_antisym a b : sql_compare a b = CompOpp (sql_compare b a).
Proof.
  destruct a as [x|], b as [y|]; try done. simpl. apply String.compare_antisym.
Qed.

Lemma sql_compare_Gt_Lt a b : sql_compare a b = Gt → sql_compare b a = Lt.
Proof. intros H. rewrite sql_compare_antisym, H. done. Qed.

Lemma sql_compare_Gt_Lt_inv a b : sql_compare a b = Lt → sql_compare b a = Gt.
Proof. intros H. rewrite sql_compare_antisym, H. done. Qed.

Lemma time_text_select off t : system_time (sql_select off t) = time_text off t.
Proof. done. Qed.

(** The table-level reading of the sort: the selected record is the first,
    in scan order, of the records with the two keys whose formatted time
    sorts last. *)
Lemma first_of_maximal off dp el table r :
  head (order_by_system_time_desc
          (map (sql_select off) (filter (λ t, sql_where dp el t = true) table)))
  = Some r →
  ∃ i t, table !! i = Some t ∧ matches dp el t ∧ r = sql_select off t
    ∧ ∀ j t', table !! j = Some t' → matches dp el t' →
        key_le (time_text off t') (time_text off t)
        ∧ ((j < i)%nat → sql_compare (time_text off t') (time_text off t) = Lt).
Proof.
  revert r. induction table as [|t0 table IH]; intros r Hh; [done|].
  destruct (sql_where dp el t0) eqn:Ew.
  - rewrite filter_cons_True in Hh by done.
    cbn [map] in Hh. unfold order_by_system_time_desc in Hh. cbn [foldr] in Hh.
    rewrite head_order_insert in Hh.
    fold (order_by_system_time_desc
            (map (sql_select off) (filter (λ t, sql_where dp el t = true) table))) in Hh.
    destruct (head (order_by_system_time_desc _)) as [z|] eqn:Ez.
    + destruct (IH z eq_refl) as (i & t & Hi & Hm & -> & Hall).
      rewrite !time_text_select in Hh.
      destruct (sql_compare (time_text off t) (time_text off t0)) eqn:Ec.
      * injection Hh as <-. exists 0%nat, t0. split_and!; try done.
        { by apply sql_where_matches. }
        intros [|j] t' Hj Hm'; simpl in Hj.
        { injection Hj as <-. split; [apply key_le_refl|lia]. }
        split; [|lia]. eapply key_le_trans; [by eapply Hall|].
        unfold key_le. by rewrite Ec.
      * injection Hh as <-. exists 0%nat, t0. split_and!; try done.
        { by apply sql_where_matches. }
        intros [|j] t' Hj Hm'; simpl in Hj.
        { injection Hj as <-. split; [apply key_le_refl|lia]. }
        split; [|lia]. eapply key_le_trans; [by eapply Hall|].
        unfold key_le. by rewrite Ec.
      * injection Hh as <-. exists (S i), t. split_and!; try done.
        intros [|j] t' Hj Hm'; simpl in Hj.
        { injection Hj as <-. split.
          - by apply sql_compare_Gt_le.
          - intros _. by apply sql_compare_Gt_Lt. }
        destruct (Hall j t' Hj Hm') as [Hle Hlt]. split; [done|].
        intros Hlt'. apply Hlt. lia.
    + injection Hh as <-. apply head_None, order_by_nil_inv, fmap_nil_inv in Ez.
      exists 0%nat, t0. split_and!; try done.
      { by apply sql_where_matches. }
      intros [|j] t' Hj Hm'; simpl in Hj.
      { injection Hj as <-. split; [apply key_le_refl|lia]. }
      exfalso. apply list_elem_of_lookup_2 in Hj.
      assert (Hin : t' ∈ filter (λ t, sql_where dp el t = true) table).
      { apply list_elem_of_filter. split; [by apply sql_where_matches|done]. }
      rewrite Ez in Hin. by apply elem_of_nil in Hin.
  - rewrite filter_cons_False in Hh by (by rewrite Ew).
    destruct (IH r Hh) as (i & t & Hi & Hm & -> & Hall).
    exists (S i), t. split_and!; try done.
    intros [|j] t' Hj Hm'; simpl in Hj.
    + injection Hj as <-. apply sql_where_matches in Hm'. congruence.
    + destruct (Hall j t' Hj Hm') as [Hle Hlt]. split; [done|].
      intros Hlt'. apply Hlt. lia.
Qed.

(** X1: what [fetch_last] does, case by case.  It raises [OverflowError]
    exactly when one of the two ids does not fit a signed 64-bit integer.
    Otherwise it answers [None] exactly when no stored record has the two
    keys; a record it returns carries the two keys asked for, is the text
    form of a stored record with those keys and has a value that is NULL or
    UTF-8; and it raises [OperationalError] exactly when the record that
    the statement selects has a value that is not UTF-8.  The statement
    never yields more than one row. *)
Theorem fetch_last_returns_stored_record (con : Connection) (dp el : Z) :
  (fetch_last con dp el = Raise OverflowError ↔ in_int64 dp && in_int64 el = false)
  ∧ (fetch_last con dp el = Return None ↔
     in_int64 dp && in_int64 el = true ∧ ∀ t, t ∈ con_table con → ¬ matches dp el t)
  ∧ (∀ r, fetch_last con dp el = Return (Some r) →
       dp_id r = dp ∧ el_id r = el ∧ decodes r = true
       ∧ ∃ t, t ∈ con_table con ∧ matches dp el t
              ∧ value r = cast_as_text (t_value t)
              ∧ system_time r = time_text (con_utc_offset con) t)
  ∧ (fetch_last con dp el = Raise OperationalError ↔
     in_int64 dp && in_int64 el = true
     ∧ ∃ r, fetchone con dp el = Some r ∧ decodes r = false)
  ∧ (length (SQL_LAST con dp el) ≤ 1)%nat.
Proof.
  split_and!.
  - unfold fetch_last. destruct (in_int64 dp && in_int64 el); [|done].
    split; [|done]. destruct (fetchone con dp el) as [r|]; [|done].
    by destruct (decodes r).
  - rewrite <- fetchone_None. unfold fetch_last.
    destruct (in_int64 dp && in_int64 el); [|split; [done|by intros [? _]]].
    destruct (fetchone con dp el) as [r|]; [|done].
    destruct (decodes r); split; try done; by intros [_ ?].
  - intros r Hr. apply fetch_last_Return in Hr as [Hr Hok]. symmetry in Hr.
    unfold lookup_ok in Hok. rewrite Hr in Hok.
    apply andb_true_iff in Hok as [_ Hdec].
    apply fetchone_Some in Hr as (t & Ht & [Hdp Hel] & ->).
    split_and!; try done. by exists t.
  - unfold fetch_last. destruct (in_int64 dp && in_int64 el); [|split; [done|by intros [? _]]].
    destruct (fetchone con dp el) as [r|].
    + destruct (decodes r) eqn:E; split; try done.
      * intros [_ (r' & [= <-] & H)]. congruence.
      * intros _. split; [done|]. by exists r.
    + split; [done|]. by intros [_ (r & ? & _)].
  - unfold SQL_LAST, sql_limit. rewrite length_firstn. lia.
Qed.

Lemma fetch_last_returns_stored_record_witness :
  ∃ r, fetch_last
         (mkConnection [mkTableRow 982 69 (SqlInteger 7) (Some 1704103200000000000)]
                       (λ _, 0)) 982 69 = Return (Some r)
       ∧ dp_id r = 982 ∧ el_id r = 69 ∧ decodes r = true.
Proof.
  eexists. split; [reflexivity|].
  destruct (fetch_last_returns_stored_record
              (mkConnection [mkTableRow 982 69 (SqlInteger 7) (Some 1704103200000000000)]
                            (λ _, 0)) 982 69) as (_ & _ & Hsome & _).
  destruct (Hsome _ eq_refl) as (Hdp & Hel & Hdec & _). by split_and!.
Defined.

(** X2: the record [fetch_last] returns is, in scan order, the first of
    the records with the two keys whose formatted time sorts last: no
    record with the keys sorts after it, and every one scanned before it
    sorts strictly before it. *)
Theorem fetch_last_first_of_maximal (con : Connection) (dp el : Z) (r : ResultRow) :
  fetch_last con dp el = Return (Some r) →
  ∃ i t, con_table con !! i = Some t ∧ matches dp el t
    ∧ r = sql_select (con_utc_offset con) t
    ∧ ∀ j t', con_table con !! j = Some t' → matches dp el t' →
        key_le (time_text (con_utc_offset con) t') (time_text (con_utc_offset con) t)
        ∧ ((j < i)%nat →
           sql_compare (time_text (con_utc_offset con) t')
                       (time_text (con_utc_offset con) t) = Lt).
Proof.
  intros Hr. apply fetch_last_Return in Hr as [Hr _]. symmetry in Hr. revert Hr.
  unfold fetchone, SQL_LAST. rewrite head_limit_1. apply first_of_maximal.
Qed.

Lemma fetch_last_first_of_maximal_witness :
  ∃ i t,
    [mkTableRow 982 69 (SqlText "a") (Some 1000000000);
     mkTableRow 982 69 (SqlText "b") (Some 2000000000);
     mkTableRow 982 69 (SqlText "c") (Some 2900000000)] !! i = Some t
    ∧ t_value t = SqlText "b".
Proof.
  destruct (fetch_last_first_of_maximal
              (mkConnection
                 [mkTableRow 982 69 (SqlText "a") (Some 1000000000);
                  mkTableRow 982 69 (SqlText "b") (Some 2000000000);
                  mkTableRow 982 69 (SqlText "c") (Some 2900000000)] (λ _, 0))
              982 69 (mkResultRow 982 69 (Some "b") (Some "1970-01-01 00:00:02")))
    as (i & t & Hi & _ & Hr & _); [reflexivity|].
  exists i, t. split; [exact Hi|].
  simpl in Hi. destruct i as [|[|[|i]]]; simpl in Hi; try discriminate Hi;
    injection Hi as <-; try reflexivity; discriminate Hr.
Defined.

(** X3: a record whose stored time has no text form (it is NULL or out of
    SQLite's date range) is returned only when no record with the two keys
    has one. *)
Theorem fetch_last_null_time_is_last_resort (con : Connection) (dp el : Z)
    (r : ResultRow) :
  fetch_last con dp el = Return (Some r) → system_time r = None →
  ∀ t, t ∈ con_table con → matches dp el t →
    time_text (con_utc_offset con) t = None.
Proof.
  intros Hr Hnull t Ht Hm. apply fetch_last_Return in Hr as [Hr _]. symmetry in Hr.
  pose proof (fetchone_maximal_text con dp el r Hr t Ht Hm) as Hle.
  rewrite Hnull in Hle.
  destruct (time_text (con_utc_offset con) t); [|done].
  exfalso. by apply Hle.
Qed.

Lemma fetch_last_null_time_is_last_resort_witness :
  time_text (λ _, 0) (mkTableRow 982 69 (SqlText "x") None) = None.
Proof.
  apply (fetch_last_null_time_is_last_resort
           (mkConnection [mkTableRow 982 69 (SqlText "x") None] (λ _, 0)) 982 69
           (mkResultRow 982 69 (Some "x") None)).
  - reflexivity.
  - reflexivity.
  - left.
  - by split.
Defined.

(** ** [build_rows] and the records of other pairs *)

Lemma fetch_last_filter (P : TableRow → Prop) `{!∀ t, Decision (P t)}
    table off dp el :
  (∀ t, matches dp el t → P t) →
  fetch_last (mkConnection (filter P table) off) dp el
  = fetch_last (mkConnection table off) dp el.
Proof.
  intros HP. unfold fetch_last, fetchone, SQL_LAST. cbn [con_table con_utc_offset].
  assert (E : filter (λ t, sql_where dp el t = true) (filter P table)
              = filter (λ t, sql_where dp el t = true) table).
  { rewrite list_filter_filter. apply list_filter_iff.
    intros t. rewrite sql_where_matches. split; [tauto|].
    intros Hm. split; [done|]. by apply HP. }
  by rewrite E.
Qed.

Lemma build_rows_elements_ext con1 con2 sch dp els rows :
  (∀ el, el ∈ els → fetch_last con1 dp el = fetch_last con2 dp el) →
  build_rows_elements con1 sch dp els rows = build_rows_elements con2 sch dp els rows.
Proof.
  revert rows. induction els as [|el els IH]; intros rows H; [done|].
  cbn [build_rows_elements]. rewrite (H el) by left.
  destruct (fetch_last con2 dp el) as [r|e]; [|done].
  unfold mbind, outcome_bind. apply IH. intros el' Hel'. apply H. by right.
Qed.

Lemma build_rows_machines_ext con1 con2 ms els rows :
  (∀ m el, m ∈ ms → el ∈ els → fetch_last con1 (snd m) el = fetch_last con2 (snd m) el) →
  build_rows_machines con1 ms els rows = build_rows_machines con2 ms els rows.
Proof.
  revert rows. induction ms as [|[sch dp] ms IH]; intros rows H; [done|].
  cbn [build_rows_machines].
  rewrite (build_rows_elements_ext con1 con2 sch dp els rows)
    by (intros el Hel; apply (H (sch, dp)); [left|done]).
  destruct (build_rows_elements con2 sch dp els rows) as [rows'|e]; [|done].
  unfold mbind, outcome_bind. apply IH. intros m el Hm Hel. apply H; [by right|done].
Qed.

Lemma matches_is_configured sch dp el t :
  (sch, dp) ∈ SCHULERS → el ∈ EL_IDS → matches dp el t → is_configured t = true.
Proof.
  intros Hm Hel [<- <-]. unfold is_configured.
  apply andb_true_iff. split; apply existsb_exists.
  - exists (sch, t_dp_id t). split; [by apply list_elem_of_In|]. apply Z.eqb_refl.
  - exists (t_el_id t). split; [by apply list_elem_of_In|]. apply Z.eqb_refl.
Qed.

(** X4: records of pairs that are not configured never change the result
    of [build_rows]: removing them from the store gives the same rows. *)
Theorem build_rows_ignores_unconfigured_records (path : string)
    (table : list TableRow) (off : Z → Z) :
  build_rows (mkHost path (Some (filter (λ t, is_configured t = true) table)) off)
  = build_rows (mkHost path (Some table) off).
Proof.
  rewrite !build_rows_connected. apply build_rows_machines_ext.
  intros [sch dp] el Hm Hel. cbn [snd]. apply fetch_last_filter.
  intros t Ht. by eapply matches_is_configured.
Qed.

(** ** Rows, labels and the endpoints *)

Lemma EL_IDS_all_labelled :
  Forall (λ el, is_Some (DPELEMENT_BY_EL !! el)) EL_IDS.
Proof. repeat constructor; by eexists. Qed.

Lemma store_readable_lookup con sch dp el :
  store_readable con = true → (sch, dp) ∈ SCHULERS → el ∈ EL_IDS →
  lookup_ok con dp el = true.
Proof.
  unfold store_readable, lookups_ok. intros H Hm Hel.
  rewrite forallb_forall in H. specialize (H (sch, dp)).
  rewrite forallb_forall in H. apply H; by apply list_elem_of_In.
Qed.

(** X5: with the configuration as shipped, every row that [build_rows]
    returns carries a label of [DPELEMENT_BY_EL]; the [el_] fallback is
    never used, whatever the store holds. *)
Theorem build_rows_labels_are_configured (path : string) (table : list TableRow)
    (off : Z → Z) (rows : list Row) :
  build_rows (mkHost path (Some table) off) = Return rows →
  ∀ r, r ∈ rows → DPELEMENT_BY_EL !! EL_ID r = Some (DPELEMENT r).
Proof.
  intros Hb r Hr. apply build_rows_Return in Hb as [_ ->].
  apply configured_row in Hr as (sch & dp & el & _ & Hel & ->).
  pose proof EL_IDS_all_labelled as Hall. rewrite Forall_forall in Hall.
  destruct (Hall el Hel) as [l Hl].
  unfold build_row, dict_get. cbn [EL_ID DPELEMENT]. by rewrite Hl.
Qed.

Lemma build_rows_labels_are_configured_witness :
  ∃ rows r,
    build_rows (mkHost "last_value.sqlite" (Some []) (λ _, 0)) = Return rows
    ∧ r ∈ rows
    ∧ DPELEMENT_BY_EL !! EL_ID r = Some (DPELEMENT r).
Proof.
  eexists _, (build_row "Schuler1" 982 69 None).
  split; [vm_compute; reflexivity|]. split; [left|].
  apply (build_rows_labels_are_configured "last_value.sqlite" [] (λ _, 0) _ eq_refl).
  left.
Defined.

(** X6: for a configured pair, on a store from which [build_rows] returns,
    the single-pair endpoint and the row of the pair agree: when the
    endpoint returns a record, the row has its value and its timestamp;
    otherwise the endpoint raises the 404 error, and the row has both
    fields null. *)
Theorem row_agrees_with_single_pair_endpoint (path : string) (table : list TableRow)
    (off : Z → Z) (rows : list Row) (sch : string) (dp el : Z) :
  build_rows (mkHost path (Some table) off) = Return rows →
  (sch, dp) ∈ SCHULERS → el ∈ EL_IDS →
  ∃ row,
    find_row rows sch el = Some row
    ∧ match get_value_by_path (mkHost path (Some table) off) dp el with
      | Return r => Valor row = value r ∧ FechaHora row = system_time r
      | Raise e =>
          e = HTTPException 404
                ("No hay valor para dp_id=" ++ pretty dp ++ " y el_id=" ++ pretty el)
          ∧ Valor row = None ∧ FechaHora row = None
      end.
Proof.
  intros Hb Hm Hel. apply build_rows_Return in Hb as [Hok ->].
  set (con := mkConnection table off).
  exists (build_row sch dp el (fetchone con dp el)). split.
  - by apply find_row_machine_blocks; [apply SCHULERS_keys_NoDup|..].
  - unfold get_value_by_path, get_conn. cbn [db_file utc_offset].
    unfold mbind at 1, outcome_bind at 1. fold con.
    rewrite fetch_last_ok by (by eapply store_readable_lookup).
    unfold mbind, outcome_bind, build_row. cbn [Valor FechaHora].
    by destruct (fetchone con dp el).
Qed.

Lemma row_agrees_with_single_pair_endpoint_witness :
  ∃ row,
    find_row (flat_map (machine_rows
                          (mkConnection
                             [mkTableRow 1028 48 (SqlInteger 3) (Some 1704103200000000000)]
                             (λ _, 0)) EL_IDS) SCHULERS) "Schuler2" 48 = Some row
    ∧ Valor row = Some "3" ∧ FechaHora row = Some "2024-01-01 10:00:00".
Proof.
  destruct (row_agrees_with_single_pair_endpoint "last_value.sqlite"
              [mkTableRow 1028 48 (SqlInteger 3) (Some 1704103200000000000)]
              (λ _, 0) _ "Schuler2" 1028 48 eq_refl) as (row & Hf & Hagree).
  - compute_done.
  - compute_done.
  - exists row. split; [exact Hf|]. vm_compute in Hagree. exact Hagree.
Defined.

(** X7: what [/health] reports and how the data routes answer.  When it
    reports [db_exists] false, [build_rows] and every data route raise the
    500 error of [get_conn].  In every case the JSON and the HTML route
    answer with the same status, 200 or 500, the alias route like
    [/dashboard/schuler], the single-pair route with 200, 404 or 500, and
    no presenter fails with a [KeyError]. *)
Theorem health_and_endpoint_status (h : Host) :
  db_path (health h) = DB_PATH h
  ∧ (db_exists (health h) = false →
     let e := HTTPException 500 ("No se encontró la BD en: " ++ DB_PATH h) in
     build_rows h = Raise e ∧ api_schuler h = Raise e ∧ dashboard_schuler h = Raise e
     ∧ ∀ dp el, get_value_by_path h dp el = Raise e)
  ∧ (response_status (api_schuler h) = 200 ∨ response_status (api_schuler h) = 500)
  ∧ response_status (dashboard_schuler h) = response_status (api_schuler h)
  ∧ response_status (dashboard_alias h) = response_status (dashboard_schuler h)
  ∧ (∀ dp el,
       response_status (get_value_by_path h dp el) = 200
       ∨ response_status (get_value_by_path h dp el) = 404
       ∨ response_status (get_value_by_path h dp el) = 500)
  ∧ (∀ k, dashboard_schuler h = Raise (KeyError k) → False)
  ∧ (∀ k, api_schuler h = Raise (KeyError k) → False).
Proof.
  destruct h as [path [table|] off]; cbn [health db_exists db_path DB_PATH].
  - assert (Hv : ∀ dp el,
               response_status (get_value_by_path (mkHost path (Some table) off) dp el) = 200
               ∨ response_status (get_value_by_path (mkHost path (Some table) off) dp el) = 404
               ∨ response_status (get_value_by_path (mkHost path (Some table) off) dp el) = 500).
    { intros dp el. unfold get_value_by_path, get_conn. cbn [db_file utc_offset].
      unfold mbind, outcome_bind, fetch_last.
      destruct (in_int64 dp && in_int64 el); [|by right; right].
      destruct (fetchone _ dp el) as [r|]; [|by right; left].
      destruct (decodes r); [by left|by right; right]. }
    destruct (build_rows (mkHost path (Some table) off)) as [rows|e] eqn:Hb.
    + rewrite (api_schuler_Return _ _ _ _ Hb), (dashboard_schuler_Return _ _ _ _ Hb).
      unfold dashboard_alias. rewrite (dashboard_schuler_Return _ _ _ _ Hb).
      split_and!; try done. by left.
    + destruct (store_readable (mkConnection table off)) eqn:Hok.
      { by rewrite build_rows_readable in Hb. }
      rewrite build_rows_unreadable in Hb by done. injection Hb as <-.
      destruct (presenters_Raise (mkHost path (Some table) off) OperationalError)
        as [Ha Hd]; [by apply build_rows_unreadable|].
      unfold dashboard_alias. rewrite Ha, Hd. split_and!; try done. by right.
  - split_and!; try done; [by right|]. intros dp el. by right; right.
Qed.

Lemma health_and_endpoint_status_witness :
  response_status (api_schuler (mkHost "last_value.sqlite" None (λ _, 0))) = 500
  ∧ get_value_by_path (mkHost "last_value.sqlite" None (λ _, 0)) 982 69
    = Raise (HTTPException 500 "No se encontró la BD en: last_value.sqlite")
  ∧ (∀ k, dashboard_schuler (mkHost "last_value.sqlite" (Some []) (λ _, 0))
          = Raise (KeyError k) → False).
Proof.
  destruct (health_and_endpoint_status (mkHost "last_value.sqlite" None (λ _, 0)))
    as (_ & Hfalse & _).
  destruct (Hfalse eq_refl) as (_ & Ha & _ & Hv).
  split_and!.
  - by rewrite Ha.
  - apply Hv.
  - apply (health_and_endpoint_status (mkHost "last_value.sqlite" (Some []) (λ _, 0))).
Defined.

Lemma concat_items_machine_blocks con els ms :
  concat (map (λ e : string * SchulerEntry, items (snd e))
              (map (λ m, entry_of_rows m (machine_rows con els m)) ms))
  = flat_map (machine_rows con els) ms.
Proof.
  induction ms as [|m ms IH]; [done|]. cbn [map concat flat_map]. by rewrite IH.
Qed.

(** X8: whenever [build_rows] returns, the JSON presenter loses no row and
    invents none: its entries are the machines of [SCHULERS] in order, the
    items of the entries put end to end are the rows of [build_rows], and
    every entry holds one item per element, each with the entry's machine
    name and [dp_id]. *)
Theorem api_schuler_partitions_rows (path : string) (table : list TableRow)
    (off : Z → Z) (rows : list Row) :
  build_rows (mkHost path (Some table) off) = Return rows →
  ∃ out,
    api_schuler (mkHost path (Some table) off) = Return out
    ∧ map fst out = map fst SCHULERS
    ∧ concat (map (λ e, items (snd e)) out) = rows
    ∧ Forall (λ e, (fst e, entry_dp_id (snd e)) ∈ SCHULERS
                   ∧ map EL_ID (items (snd e)) = EL_IDS
                   ∧ Forall (λ r, Schuler r = fst e ∧ DP r = entry_dp_id (snd e))
                            (items (snd e))) out.
Proof.
  intros Hb. set (con := mkConnection table off).
  eexists. split; [by apply (api_schuler_Return _ _ _ _ Hb)|].
  apply build_rows_Return in Hb as [_ ->]. split_and!.
  - rewrite map_map. done.
  - apply concat_items_machine_blocks.
  - apply Forall_forall. intros e He.
    apply list_elem_of_In, in_map_iff in He as ([sch dp] & <- & Hm).
    unfold entry_of_rows. cbn [fst snd items entry_dp_id].
    split_and!.
    + by apply list_elem_of_In.
    + unfold machine_rows. rewrite map_map. apply map_id.
    + apply Forall_forall. intros r Hr.
      apply list_elem_of_In, in_map_iff in Hr as (el & <- & _). done.
Qed.

Lemma api_schuler_partitions_rows_witness :
  ∃ out,
    api_schuler (mkHost "last_value.sqlite" (Some []) (λ _, 0)) = Return out
    ∧ map fst out = map fst SCHULERS.
Proof.
  destruct (api_schuler_partitions_rows "last_value.sqlite" [] (λ _, 0) _ eq_refl)
    as (out & Ha & Hk & _).
  by exists out.
Defined.

(** X9: without an [index.html] the root route redirects, with status 307,
    to a route that exists and serves the document of
    [/dashboard/schuler]; with one it serves that file. *)
Theorem root_redirect_reaches_dashboard (index : string) (h : Host) :
  root index true = FileResponse index
  ∧ ∃ url, root index false = RedirectResponse url 307
           ∧ html_route h url = Some (dashboard_schuler h)
           ∧ html_route h url = html_route h "/dashboard/schuler".
Proof.
  split; [done|]. exists "/_dashboard". done.
Qed.

(** ** The location of the database *)

Section DbPathFacts.
Context {path : Type} (HERE : path) (parent : path → path)
        (joinpath : path → path → path) (Path : string → path)
        (is_absolute : path → bool).

(** X10: with [LASTVALUE_DB] unset or empty, the path is one of the two
    candidates: the one beside [server.py] if it exists, else the one under
    [../DB] if that exists, else again the one beside [server.py]; so the
    chosen file is missing only when both candidates are. *)
Theorem detected_db_path_prefers_existing (path_exists : path → bool) :
  resolve_db_path path HERE parent joinpath Path is_absolute path_exists None
  = detected_db_path path HERE parent joinpath Path path_exists
  ∧ resolve_db_path path HERE parent joinpath Path is_absolute path_exists (Some "")
    = detected_db_path path HERE parent joinpath Path path_exists
  ∧ (path_exists (CANDIDATE_0 path HERE joinpath Path) = true →
     detected_db_path path HERE parent joinpath Path path_exists
     = CANDIDATE_0 path HERE joinpath Path)
  ∧ (path_exists (CANDIDATE_0 path HERE joinpath Path) = false →
     path_exists (CANDIDATE_1 path HERE parent joinpath Path) = true →
     detected_db_path path HERE parent joinpath Path path_exists
     = CANDIDATE_1 path HERE parent joinpath Path)
  ∧ (path_exists (CANDIDATE_0 path HERE joinpath Path) = false →
     path_exists (CANDIDATE_1 path HERE parent joinpath Path) = false →
     detected_db_path path HERE parent joinpath Path path_exists
     = CANDIDATE_0 path HERE joinpath Path)
  ∧ (path_exists (detected_db_path path HERE parent joinpath Path path_exists) = false →
     path_exists (CANDIDATE_0 path HERE joinpath Path) = false
     ∧ path_exists (CANDIDATE_1 path HERE parent joinpath Path) = false).
Proof.
  unfold resolve_db_path, detected_db_path, CANDIDATES. cbn [find String.eqb].
  split_and!; try done.
  - by intros ->.
  - by intros -> ->.
  - by intros -> ->.
  - destruct (path_exists (CANDIDATE_0 path HERE joinpath Path)) eqn:E0;
      [by rewrite E0|].
    destruct (path_exists (CANDIDATE_1 path HERE parent joinpath Path)) eqn:E1;
      [by rewrite E1|]. done.
Qed.

(** X11: a non-empty [LASTVALUE_DB] decides the path alone: an absolute
    path is taken as it is, a relative one is joined to the directory of
    [server.py], and neither the candidates nor the existence of any file
    is consulted. *)
Theorem env_override_ignores_candidates (path_exists path_exists' : path → bool)
    (e : string) :
  e ≠ "" →
  resolve_db_path path HERE parent joinpath Path is_absolute path_exists (Some e)
  = (if is_absolute (Path e) then Path e else joinpath HERE (Path e))
  ∧ resolve_db_path path HERE parent joinpath Path is_absolute path_exists' (Some e)
    = resolve_db_path path HERE parent joinpath Path is_absolute path_exists (Some e).
Proof.
  intros He. unfold resolve_db_path.
  apply String.eqb_neq in He. by rewrite He.
Qed.
End DbPathFacts.

Lemma detected_db_path_prefers_existing_witness :
  detected_db_path string "/srv/app" (λ _, "/srv") (λ a b, a ++ "/" ++ b) id
    (λ p, String.eqb p "/srv/DB/last_value.sqlite")
  = "/srv/DB/last_value.sqlite".
Proof.
  apply (detected_db_path_prefers_existing "/srv/app" (λ _, "/srv")
           (λ a b, a ++ "/" ++ b) id (λ _, false)
           (λ p, String.eqb p "/srv/DB/last_value.sqlite")); reflexivity.
Defined.

Lemma env_override_ignores_candidates_witness :
  resolve_db_path string "/srv/app" (λ _, "/srv") (λ a b, a ++ "/" ++ b) id
    (λ p, String.prefix "/" p) (λ _, true) (Some "data/x.sqlite")
  = "/srv/app/data/x.sqlite".
Proof.
  apply (env_override_ignores_candidates "/srv/app" (λ _, "/srv")
           (λ a b, a ++ "/" ++ b) id (λ p, String.prefix "/" p)
           (λ _, true) (λ _, true) "data/x.sqlite").
  discriminate.
Defined.

(** ** The query of [pruebas.py] *)

Lemma elem_of_order_insert_raw t x l : t ∈ order_insert_raw x l ↔ t = x ∨ t ∈ l.
Proof.
  induction l as [|y l IH]; simpl.
  - rewrite list_elem_of_singleton, elem_of_nil. tauto.
  - destruct (sql_compare_int (t_system_time y) (t_system_time x));
      rewrite ?elem_of_cons, ?IH; tauto.
Qed.

Lemma elem_of_order_by_raw t ts : t ∈ order_by_raw_system_time_desc ts ↔ t ∈ ts.
Proof.
  unfold order_by_raw_system_time_desc.
  induction ts as [|x ts IH]; simpl; [done|].
  rewrite elem_of_order_insert_raw, IH, elem_of_cons. tauto.
Qed.

Lemma sql_compare_int_refl a : sql_compare_int a a = Eq.
Proof. destruct a as [x|]; [|done]. apply Z.compare_refl. Qed.

Lemma sql_compare_int_trans a b c :
  sql_compare_int a b ≠ Gt → sql_compare_int b c ≠ Gt → sql_compare_int a c ≠ Gt.
Proof.
  destruct a as [x|], b as [y|], c as [z|]; simpl; try done.
  rewrite !Z.compare_gt_iff. lia.
Qed.

Lemma sql_compare_int_Gt_le a b : sql_compare_int a b = Gt → sql_compare_int b a ≠ Gt.
Proof.
  destruct a as [x|], b as [y|]; simpl; try done.
  rewrite !Z.compare_gt_iff. lia.
Qed.

Lemma head_order_insert_raw x l :
  head (order_insert_raw x l)
  = match head l with
    | None => Some x
    | Some y => match sql_compare_int (t_system_time y) (t_system_time x) with
                | Gt => Some y
                | _ => Some x
                end
    end.
Proof.
  destruct l as [|y l]; [done|]. simpl.
  by destruct (sql_compare_int (t_system_time y) (t_system_time x)).
Qed.

Lemma head_order_by_raw_maximal ts t :
  head (order_by_raw_system_time_desc ts) = Some t →
  ∀ x, x ∈ ts → sql_compare_int (t_system_time x) (t_system_time t) ≠ Gt.
Proof.
  unfold order_by_raw_system_time_desc. revert t.
  induction ts as [|y ts IH]; intros t Hh x Hx.
  - by apply elem_of_nil in Hx.
  - simpl in Hh. rewrite head_order_insert_raw in Hh.
    destruct (head (foldr order_insert_raw [] ts)) as [z|] eqn:Ez.
    + specialize (IH z eq_refl).
      destruct (sql_compare_int (t_system_time z) (t_system_time y)) eqn:Ec;
        injection Hh as <-; apply elem_of_cons in Hx as [->|Hx].
      * by rewrite sql_compare_int_refl.
      * eapply sql_compare_int_trans; [by apply IH|]. by rewrite Ec.
      * by rewrite sql_compare_int_refl.
      * eapply sql_compare_int_trans; [by apply IH|]. by rewrite Ec.
      * by apply sql_compare_int_Gt_le.
      * by apply IH.
    + injection Hh as <-. apply head_None in Ez.
      destruct ts as [|w ts]; [|exfalso].
      * apply list_elem_of_singleton in Hx as ->. by rewrite sql_compare_int_refl.
      * assert (Hw : w ∈ foldr order_insert_raw [] (w :: ts))
          by (apply elem_of_order_by_raw; left).
        rewrite Ez in Hw. by apply elem_of_nil in Hw.
Qed.

(** X12: the query of [pruebas.py] sorts on the stored time: it prints
    nothing exactly when no record has [dp_id] 10, and otherwise a stored
    record with [dp_id] 10 that no such record follows in stored time (a
    NULL time coming before every other). *)
Theorem pruebas_last_has_latest_stored_time (table : list TableRow) :
  (pruebas_last table = None ↔ ∀ t, t ∈ table → t_dp_id t ≠ 10)
  ∧ (∀ t, pruebas_last table = Some t →
       t ∈ table ∧ t_dp_id t = 10
       ∧ ∀ t', t' ∈ table → t_dp_id t' = 10 →
           match t_system_time t', t_system_time t with
           | Some a, Some b => a ≤ b
           | Some _, None => False
           | None, _ => True
           end).
Proof.
  unfold pruebas_last.
  assert (Hfirst : ∀ l : list TableRow, head (firstn 1 l) = head l)
    by (by intros [|? ?]).
  rewrite Hfirst. split.
  - split.
    + intros H t Ht Hdp. apply head_None in H.
      assert (Hin : t ∈ order_by_raw_system_time_desc
                        (filter (λ t, (t_dp_id t =? 10) = true) table)).
      { apply elem_of_order_by_raw, list_elem_of_filter.
        split; [by apply Z.eqb_eq|done]. }
      rewrite H in Hin. by apply elem_of_nil in Hin.
    + intros H. rewrite filter_none; [done|].
      intros t Ht Hdp. apply (H t Ht). by apply Z.eqb_eq.
  - intros t Ht.
    pose proof (head_Some_elem_of _ _ Ht) as Hin.
    apply elem_of_order_by_raw, list_elem_of_filter in Hin as [Hdp Hin].
    apply Z.eqb_eq in Hdp. split_and!; try done.
    intros t' Hin' Hdp'.
    assert (Hle : sql_compare_int (t_system_time t') (t_system_time t) ≠ Gt).
    { apply (head_order_by_raw_maximal _ _ Ht), list_elem_of_filter.
      split; [by apply Z.eqb_eq|done]. }
    destruct (t_system_time t') as [a|], (t_system_time t) as [b|]; simpl in Hle;
      done.
Qed.

Lemma pruebas_last_has_latest_stored_time_witness :
  pruebas_last [mkTableRow 10 1 (SqlText "old") (Some 1704103200000000000);
                mkTableRow 10 2 (SqlText "new") (Some 1704103200500000000)]
  = Some (mkTableRow 10 2 (SqlText "new") (Some 1704103200500000000))
  ∧ 1704103200000000000 ≤ 1704103200500000000.
Proof.
  split; [reflexivity|].
  destruct (pruebas_last_has_latest_stored_time
              [mkTableRow 10 1 (SqlText "old") (Some 1704103200000000000);
               mkTableRow 10 2 (SqlText "new") (Some 1704103200500000000)])
    as [_ Hsome].
  destruct (Hsome (mkTableRow 10 2 (SqlText "new") (Some 1704103200500000000)) eq_refl)
    as (_ & _ & Hmax).
  apply (Hmax (mkTableRow 10 1 (SqlText "old") (Some 1704103200000000000)));
    [left|reflexivity].
Defined.

(** ** When the verbatim value cell is also the escaped one *)

Lemma string_length_app (a b : string) :
  String.length (a ++ b) = (String.length a + String.length b)%nat.
Proof.
  induction a as [|c a IH]; [done|].
  change (String c a ++ b) with (String c (a ++ b)).
  cbn [String.length]. by rewrite IH.
Qed.

Lemma string_app_cancel_r (x y q : string) : x ++ q = y ++ q → x = y.
Proof.
  revert y. induction x as [|c x IH]; intros [|d y] H.
  - done.
  - apply (f_equal String.length) in H.
    rewrite (string_length_app (String d y)) in H. cbn [String.length] in H.
    change ("" ++ q) with q in H. lia.
  - apply (f_equal String.length) in H.
    rewrite (string_length_app (String c x)) in H. cbn [String.length] in H.
    change ("" ++ q) with q in H. lia.
  - change (String c (x ++ q) = String d (y ++ q)) in H.
    injection H as -> H. f_equal. by apply IH.
Qed.

Lemma html_escape_char_plain c :
  html_significant c = false → html_escape_char c = String c "".
Proof.
  unfold html_significant, html_escape_char.
  repeat (destruct (Ascii.eqb c _); [done|]). done.
Qed.

Lemma html_escape_char_length c :
  (1 ≤ String.length (html_escape_char c))%nat
  ∧ (html_significant c = true → (1 < String.length (html_escape_char c))%nat).
Proof.
  unfold html_significant, html_escape_char.
  repeat (destruct (Ascii.eqb c _); [cbn; split; [lia|intros _; lia]|]).
  cbn. split; [lia|done].
Qed.

Lemma html_escape_length v :
  (String.length v ≤ String.length (html_escape v))%nat
  ∧ (has_html_significant v = true →
     (String.length v < String.length (html_escape v))%nat).
Proof.
  induction v as [|c v [IH1 IH2]]; [done|].
  cbn [html_escape has_html_significant String.length].
  rewrite string_length_app.
  destruct (html_escape_char_length c) as [Hc1 Hc2]. split; [lia|].
  intros H. apply orb_true_iff in H as [H|H].
  - specialize (Hc2 H). lia.
  - specialize (IH2 H). lia.
Qed.

Lemma html_escape_fixed_iff v : html_escape v = v ↔ has_html_significant v = false.
Proof.
  split.
  - intros H. destruct (has_html_significant v) eqn:E; [|done].
    destruct (html_escape_length v) as [_ Hlt]. specialize (Hlt E).
    rewrite H in Hlt. lia.
  - induction v as [|c v IH]; [done|].
    cbn [html_escape has_html_significant]. intros H.
    apply orb_false_iff in H as [Hc Hv].
    rewrite html_escape_char_plain, IH by done. done.
Qed.

Lemma cell_frame_inj (a l b x y q : string) :
  a ++ l ++ b ++ x ++ q = a ++ l ++ b ++ y ++ q ↔ x = y.
Proof.
  split; [|by intros ->]. intros H.
  apply (inj (String.app a)), (inj (String.app l)), (inj (String.app b)) in H.
  by apply string_app_cancel_r in H.
Qed.

(** X13: for a found row with a non-null value, the value cell that
    [dashboard_schuler] writes equals the HTML-escaped value exactly when
    the value contains none of the characters [&], [<], [>], the double
    quote and the single quote. *)
Theorem value_cell_escaped_iff_plain (rows : list Row) (sch : string) (el : Z)
    (r : Row) (v : string) :
  find_row rows sch el = Some r → Valor r = Some v →
  (dashboard_tr rows sch el
   = "<tr><td>" ++ dict_get DPELEMENT_BY_EL el (el_label el) ++ "</td><td>"
     ++ html_escape v ++ "</td><td>" ++ cell_text (Some r) FechaHora ++ "</td></tr>"
   ↔ has_html_significant v = false).
Proof.
  intros Hf Hv. rewrite <- html_escape_fixed_iff.
  unfold dashboard_tr. rewrite Hf. cbn [cell_text]. rewrite Hv.
  change (("<tr><td>" ++ dict_get DPELEMENT_BY_EL el (el_label el) ++ "</td><td>" ++ v
           ++ ("</td><td>" ++ cell_text (Some r) FechaHora ++ "</td></tr>")
           = "<tr><td>" ++ dict_get DPELEMENT_BY_EL el (el_label el) ++ "</td><td>"
             ++ html_escape v
             ++ ("</td><td>" ++ cell_text (Some r) FechaHora ++ "</td></tr>"))
          ↔ html_escape v = v).
  rewrite cell_frame_inj. split; congruence.
Qed.

Lemma value_cell_escaped_iff_plain_witness :
  dashboard_tr [mkRow "Schuler1" 982 "Barras.VelocidadAcunado.Valor" 69
                      (Some "12.5") None] "Schuler1" 69
  = "<tr><td>Barras.VelocidadAcunado.Valor</td><td>" ++ html_escape "12.5"
    ++ "</td><td></td></tr>".
Proof.
  apply (value_cell_escaped_iff_plain
           [mkRow "Schuler1" 982 "Barras.VelocidadAcunado.Valor" 69 (Some "12.5") None]
           "Schuler1" 69
           (mkRow "Schuler1" 982 "Barras.VelocidadAcunado.Valor" 69 (Some "12.5") None)
           "12.5"); reflexivity.
Defined.

(** ** When [fetch_last] does return the latest record *)

(** X14: a record with the two keys whose formatted time sorts strictly
    after that of every other record with the keys is the one the
    statement selects, wherever it stands in the table; in particular the
    only record of a pair is selected.  With ids that fit a signed 64-bit
    integer, [fetch_last] returns that record when its value is NULL or
    UTF-8 and raises [OperationalError] when it is not. *)
Theorem fetch_last_strictly_latest (con : Connection) (dp el : Z) (t : TableRow) :
  t ∈ con_table con → matches dp el t →
  (∀ t', t' ∈ con_table con → matches dp el t' → t' ≠ t →
     sql_compare (time_text (con_utc_offset con) t')
                 (time_text (con_utc_offset con) t) = Lt) →
  fetchone con dp el = Some (sql_select (con_utc_offset con) t)
  ∧ (in_int64 dp && in_int64 el = true →
     fetch_last con dp el
     = if decodes (sql_select (con_utc_offset con) t)
       then Return (Some (sql_select (con_utc_offset con) t))
       else Raise OperationalError).
Proof.
  intros Ht Hm Hstrict.
  assert (Hone : fetchone con dp el = Some (sql_select (con_utc_offset con) t)).
  { destruct (fetchone_is_Some con dp el t Ht Hm) as [r Hr].
    rewrite Hr. f_equal.
    pose proof (fetchone_maximal_text con dp el r Hr t Ht Hm) as Hle.
    apply fetchone_Some in Hr as (t0 & Ht0 & Hm0 & ->).
    destruct (decide (t0 = t)) as [->|Hne]; [done|].
    exfalso. apply Hle. rewrite time_text_select.
    apply sql_compare_Gt_Lt_inv. by apply Hstrict. }
  split; [done|]. intros Hin. unfold fetch_last. by rewrite Hin, Hone.
Qed.

Lemma fetch_last_strictly_latest_witness :
  fetch_last
    (mkConnection [mkTableRow 982 69 (SqlText "new") (Some 1704103201000000000);
                   mkTableRow 982 69 (SqlText "old") (Some 1704103200000000000);
                   mkTableRow 982 48 (SqlText "other") (Some 1704103209000000000)]
                  (λ _, 0)) 982 69
  = Return (Some (mkResultRow 982 69 (Some "new") (Some "2024-01-01 10:00:01"))).
Proof.
  destruct (fetch_last_strictly_latest
           (mkConnection [mkTableRow 982 69 (SqlText "new") (Some 1704103201000000000);
                          mkTableRow 982 69 (SqlText "old") (Some 1704103200000000000);
                          mkTableRow 982 48 (SqlText "other") (Some 1704103209000000000)]
                         (λ _, 0)) 982 69
           (mkTableRow 982 69 (SqlText "new") (Some 1704103201000000000)))
    as [_ Hret].
  - left.
  - by split.
  - intros t' Hin [Hdp Hel] Hne. cbn [con_table] in Hin.
    apply elem_of_cons in Hin as [->|Hin]; [done|].
    apply elem_of_cons in Hin as [->|Hin]; [reflexivity|].
    apply list_elem_of_singleton in Hin as ->. discriminate Hel.
  - by rewrite Hret.
Defined.

(** ** The two presenters side by side *)


